(** * DBSCAN-Analysis: the parameter search and the analysis pipelines

    A shallow embedding of [utils.py] and of the four analysis pipelines
    ([customer_analysis.py], [product_analysis.py], [supplier_analysis.py],
    [country_analysis.py]).  Python floats are IEEE binary64 numbers and
    are modelled by Rocq's primitive floats; Python ints are [Z]; an
    exception is a value of the [result] type. *)

From Stdlib Require Import List ZArith Lia Bool String Floats.
From Stdlib Require Uint63.
From Stdlib Require Import Sorting.Permutation Sorting.Sorted.
Import ListNotations.

Local Open Scope Z_scope.

(** ** Exceptions *)

Inductive exn : Type :=
| ValueError (msg : string)
| IndexError (msg : string)
| LibraryError (msg : string).

Inductive result (A : Type) : Type :=
| Ok (a : A)
| Raise (e : exn).

Arguments Ok {A} a.
Arguments Raise {A} e.

Definition bind {A B : Type} (r : result A) (k : A -> result B) : result B :=
  match r with
  | Ok a => k a
  | Raise e => Raise e
  end.

Notation "x <- r ;; k" := (bind r (fun x => k))
  (at level 61, r at next level, right associativity).

(** ** Numbers and arrays *)

Definition row := list float.
Definition matrix := list row.
Definition labeling := list Z.

(** [a > b] on Python floats. *)
Definition float_gt (a b : float) : bool := PrimFloat.ltb b a.

(** [range(lo, hi)] *)
Definition range (lo hi : Z) : list Z :=
  map (fun i => lo + Z.of_nat i) (seq 0 (Z.to_nat (hi - lo))).

(** numpy orders floats ascending with nan last. *)
Definition np_le (a b : float) : bool :=
  PrimFloat.leb a b || PrimFloat.is_nan b.

Fixpoint np_insert (a : float) (l : list float) : list float :=
  match l with
  | [] => [a]
  | b :: l' => if np_le a b then a :: b :: l' else b :: np_insert a l'
  end.

(** [np.sort] on a one-dimensional float array. *)
Definition np_sort (l : list float) : list float :=
  fold_right np_insert [] l.

(** [a[:, j]] *)
Definition column (j : nat) (a : list (list float)) : list float :=
  map (fun r => nth j r PrimFloat.nan) a.

Fixpoint insert_sorted (a : Z) (l : list Z) : list Z :=
  match l with
  | [] => [a]
  | b :: l' => if a <=? b then a :: b :: l' else b :: insert_sorted a l'
  end.

(** Python's [sorted] on integers. *)
Definition sorted (l : list Z) : list Z := fold_right insert_sorted [] l.

Definition mem (a : Z) (l : list Z) : bool := existsb (Z.eqb a) l.

Fixpoint unique_from (seen l : list Z) : list Z :=
  match l with
  | [] => []
  | a :: l' =>
      if mem a seen then unique_from seen l'
      else a :: unique_from (a :: seen) l'
  end.

(** pandas' [Series.unique()]: the distinct values in order of first
    appearance. *)
Definition unique (l : list Z) : list Z := unique_from [] l.

(** [np.unique]: the distinct values, sorted. *)
Definition np_unique (l : list Z) : list Z := sorted (unique l).

Definition len {A : Type} (l : list A) : Z := Z.of_nat (List.length l).

(** [a[i]] for a non-negative index. *)
Definition index {A : Type} (a : list A) (i : nat) : result A :=
  match nth_error a i with
  | Some v => Ok v
  | None => Raise (IndexError "index out of bounds")
  end.

(** ** Library primitives the parameter search is written against *)

Definition euclidean (x y : row) : float :=
  PrimFloat.sqrt
    (fold_left (fun acc ab => (acc + (fst ab - snd ab) * (fst ab - snd ab))%float)
               (combine x y) 0%float).

(** Modelled from the spec: [NearestNeighbors(n_neighbors=m).fit(X)] followed
    by [kneighbors(X)] is scikit-learn's and is not under src/.  Section 4.2,
    step 2a: a standard nearest-neighbour query of size [m] under Euclidean
    distance, the query row itself included; each output row holds the [m]
    smallest distances in ascending order.  A query for more neighbours than
    there are rows, or for none, is refused. *)
Definition kneighbors (n_neighbors : Z) (X : matrix) : result (list (list float)) :=
  if n_neighbors <=? 0 then Raise (ValueError "Expected n_neighbors > 0")
  else if len X <? n_neighbors then
    Raise (ValueError "Expected n_neighbors <= n_samples_fit")
  else Ok (map (fun x => firstn (Z.to_nat n_neighbors) (np_sort (map (euclidean x) X))) X).

(** ** utils.py: find_optimal_parameters *)

Record search : Type := mkSearch {
  best_eps : option float;
  best_min_samples : option Z;
  best_score : float
}.

(** What one pass of the loop body finds for a candidate [min_samples]. *)
Inductive trial : Type :=
| NoElbow
| InvalidClustering (eps : float)
| Scored (eps : float) (score : float).

(** config.py: [DEFAULT_EPS = 0.3]; the binary64 number nearest to 0.3. *)
Definition DEFAULT_EPS : float := 0x1.3333333333333p-2%float.
Definition DEFAULT_MIN_SAMPLES : Z := 3.

Section ParameterSearch.

(** [KneeLocator(range(len(d)), d, curve='convex', direction='increasing').elbow] *)
Variable KneeLocator_elbow : list float -> result (option nat).
(** [DBSCAN(eps=eps, min_samples=m).fit_predict(X)] *)
Variable DBSCAN_fit_predict : float -> Z -> matrix -> result labeling.
(** [silhouette_score(X, labels)] *)
Variable silhouette_score : matrix -> labeling -> result float.

Variable X_scaled : matrix.

(** Lines 53-62: the sorted k-distance curve of the candidate and the
    distance at its elbow; [None] when the curve has no elbow. *)
Definition elbow_eps (min_samples : Z) : result (option float) :=
  distances <- kneighbors min_samples X_scaled ;;
  let distances := np_sort (column (Z.to_nat (min_samples - 1)) distances) in
  elbow <- KneeLocator_elbow distances ;;
  match elbow with
  | None => Ok None
  | Some e => eps <- index distances e ;; Ok (Some eps)
  end.

(** Lines 53-76: one candidate.  The two [continue] statements are the
    outcomes [NoElbow] and [InvalidClustering]. *)
Definition try_min_samples (min_samples : Z) : result trial :=
  found <- elbow_eps min_samples ;;
  match found with
  | None => Ok NoElbow
  | Some eps =>
      labels <- DBSCAN_fit_predict eps min_samples X_scaled ;;
      if len (np_unique labels) <=? 1 then Ok (InvalidClustering eps)
      else
        score <- silhouette_score X_scaled labels ;;
        Ok (Scored eps score)
  end.

(** Lines 79-82. *)
Definition record_trial (st : search) (min_samples : Z) (t : trial) : search :=
  match t with
  | Scored eps score =>
      if float_gt score (best_score st)
      then mkSearch (Some eps) (Some min_samples) score
      else st
  | _ => st
  end.

Definition loop_body (st : search) (min_samples : Z) : result search :=
  t <- try_min_samples min_samples ;;
  Ok (record_trial st min_samples t).

Fixpoint for_each (ms : list Z) (st : search) : result search :=
  match ms with
  | [] => Ok st
  | m :: ms' => st' <- loop_body st m ;; for_each ms' st'
  end.

Definition initial : search := mkSearch None None neg_infinity.

(** Lines 85-91: [best_eps] and [best_min_samples] are assigned together;
    when [best_eps is None] the literals 0.3 and 3 are returned. *)
Definition chosen (st : search) : float * Z :=
  match best_eps st, best_min_samples st with
  | Some e, Some m => (e, m)
  | _, _ => (0x1.3333333333333p-2%float, 3)
  end.

Definition find_optimal_parameters (min_samples_range : Z * Z) : result (float * Z) :=
  st <- for_each (range (fst min_samples_range) (snd min_samples_range + 1)) initial ;;
  Ok (chosen st).

(** Step 2c of the search: the candidate's curve has no elbow (line 58). *)
Definition no_elbow (min_samples : Z) : Prop :=
  elbow_eps min_samples = Ok None.

(** Step 2f: the clustering at the elbow distance has at most one distinct
    label (line 72). *)
Definition degenerate_labeling (min_samples : Z) : Prop :=
  exists eps labels,
    elbow_eps min_samples = Ok (Some eps) /\
    DBSCAN_fit_predict eps min_samples X_scaled = Ok labels /\
    len (np_unique labels) <= 1.

Definition skipped (min_samples : Z) : Prop :=
  no_elbow min_samples \/ degenerate_labeling min_samples.

(** Candidate [m] of the range [lo..hi] is scored [s] at distance [e], no
    candidate raises, every earlier score is below [s] and every later score
    is equal to [s] or below it. *)
Definition first_best (lo hi m : Z) (e s : float) : Prop :=
  lo <= m <= hi /\
  try_min_samples m = Ok (Scored e s) /\
  float_gt s neg_infinity = true /\
  (forall m', lo <= m' <= hi -> exists t, try_min_samples m' = Ok t) /\
  (forall m' e' s', lo <= m' < m ->
     try_min_samples m' = Ok (Scored e' s') -> float_gt s s' = true) /\
  (forall m' e' s', m < m' <= hi ->
     try_min_samples m' = Ok (Scored e' s') -> s' = s \/ float_gt s s' = true).

(** The state after any number of passes: nothing recorded and the score at
    minus infinity, or the distance and score of a scored candidate seen so
    far. *)
Definition recorded_from (seen : list Z) (st : search) : Prop :=
  (best_eps st = None /\ best_min_samples st = None /\
   best_score st = neg_infinity) \/
  (exists m e, In m seen /\ best_eps st = Some e /\ best_min_samples st = Some m /\
               try_min_samples m = Ok (Scored e (best_score st))).

End ParameterSearch.

(** The distance from row [x] to its [m]-th nearest row of [X], [x] itself
    counted among the rows (section 4.2, step 2a). *)
Definition kth_nearest_distance (m : Z) (X : matrix) (x : row) : float :=
  nth (Z.to_nat (m - 1)) (np_sort (map (euclidean x) X)) PrimFloat.nan.

(** Step 2b: those distances over every row, ascending. *)
Definition k_distance_curve (m : Z) (X : matrix) : list float :=
  np_sort (map (kth_nearest_distance m X) X).

(** [a] comes strictly before [b] in numpy's order. *)
Definition np_lt (a b : float) : bool := np_le a b && negb (np_le b a).

(** A sequence in ascending order, as [np.sort] leaves it. *)
Definition ascending (l : list float) : Prop :=
  StronglySorted (fun a b => np_le a b = true) l.

(** Section 4.2, step 2a, in the spec's words: [d] is the distance from row
    [x] to its [m]-th nearest row of [X], the rows of [X] all counted, [x]
    itself among them when it is one of them.  [d] is the Euclidean distance
    from [x] to a row of [X]; fewer than [m] rows are strictly nearer to [x]
    than [d], and at least [m] rows are within [d] of [x]. *)
Definition is_kth_nearest_distance (m : Z) (X : matrix) (x : row) (d : float) : Prop :=
  (exists y, In y X /\ euclidean x y = d) /\
  len (filter (fun y => np_lt (euclidean x y) d) X) < m /\
  m <= len (filter (fun y => np_le (euclidean x y) d) X).

(** The spec_float is a nan. *)
Definition sf_nan (x : spec_float) : bool :=
  match x with
  | S754_nan => true
  | _ => false
  end.

(** ** The clustering primitive *)

(** [labels[i]]; an index past the end reads as a label already set. *)
Definition label_at (labels : labeling) (i : nat) : Z := nth i labels 0.

(** [labels[i] = c] *)
Fixpoint assign (labels : labeling) (i : nat) (c : Z) : labeling :=
  match labels, i with
  | [], _ => []
  | _ :: rest, O => c :: rest
  | a :: rest, S i' => a :: assign rest i' c
  end.

(** For every row, the indices of the rows within [eps] of it, the row
    itself among them, in ascending order. *)
Definition radius_neighbors (eps : float) (X : matrix) : list (list nat) :=
  map (fun x =>
         filter (fun j => PrimFloat.leb (euclidean x (nth j X [])) eps)
                (seq 0 (List.length X)))
      X.

(** A row is a core point when at least [min_samples] rows, itself counted,
    lie within [eps] of it. *)
Definition core_samples (min_samples : Z) (neighborhoods : list (list nat)) : list bool :=
  map (fun nb => min_samples <=? len nb) neighborhoods.

(** The growth of one cluster from row [i]: a depth-first walk over a stack
    of rows to visit.  A row still at -1 takes the label of the cluster, and
    a core row pushes its neighbours that are still at -1.  [fuel] bounds the
    number of visits. *)
Fixpoint expand (fuel : nat) (neighborhoods : list (list nat)) (is_core : list bool)
    (label_num : Z) (i : nat) (stack : list nat) (labels : labeling)
    : option labeling :=
  match fuel with
  | O => None
  | S fuel' =>
      let labels1 :=
        if label_at labels i =? -1 then assign labels i label_num else labels in
      let stack1 :=
        if (label_at labels i =? -1) && nth i is_core false
        then rev (filter (fun v => label_at labels1 v =? -1) (nth i neighborhoods []))
             ++ stack
        else stack in
      match stack1 with
      | [] => Some labels1
      | i' :: stack2 =>
          expand fuel' neighborhoods is_core label_num i' stack2 labels1
      end
  end.

(** The rows in order: a core row still at -1 starts the next cluster. *)
Fixpoint dbscan_inner (fuel : nat) (neighborhoods : list (list nat))
    (is_core : list bool) (rows : list nat) (label_num : Z) (labels : labeling)
    : option labeling :=
  match rows with
  | [] => Some labels
  | i :: rest =>
      if negb (label_at labels i =? -1) || negb (nth i is_core false)
      then dbscan_inner fuel neighborhoods is_core rest label_num labels
      else
        match expand fuel neighborhoods is_core label_num i [] labels with
        | None => None
        | Some labels' =>
            dbscan_inner fuel neighborhoods is_core rest (label_num + 1) labels'
        end
  end.

(** Modelled from the spec: [DBSCAN(eps, min_samples).fit_predict(X)] is
    scikit-learn's and is not under src/.  Section 4.3: core points have at
    least [min_samples] neighbours within [eps], border points are reachable
    from a core point, all other rows are noise and labelled -1; clusters are
    numbered from 0 in row order.  Section 3 makes [eps] a positive real and
    the matrix non-empty: a value outside is refused, as the library does. *)
Definition dbscan (eps : float) (min_samples : Z) (X : matrix) : result labeling :=
  if negb (PrimFloat.ltb 0 eps) then Raise (ValueError "eps must be positive")
  else if min_samples <? 1 then Raise (ValueError "min_samples must be at least 1")
  else if len X =? 0 then Raise (ValueError "Found array with 0 sample(s)")
  else
    let n := List.length X in
    let neighborhoods := radius_neighbors eps X in
    let is_core := core_samples min_samples neighborhoods in
    match dbscan_inner (n * (n + 1) + 1) neighborhoods is_core (seq 0 n) 0
                       (repeat (-1) n) with
    | Some labels => Ok labels
    | None => Raise (LibraryError "cluster growth did not finish")
    end.

(** Row [i] of [X] is a core point for [(eps, min_samples)]. *)
Definition core_point (eps : float) (min_samples : Z) (X : matrix) (i : nat) : Prop :=
  nth i (core_samples min_samples (radius_neighbors eps X)) false = true.

(** Row [i] is a core point or lies within [eps] of one: it is not noise. *)
Definition density_reached (eps : float) (min_samples : Z) (X : matrix) (i : nat) : Prop :=
  core_point eps min_samples X i \/
  exists c, core_point eps min_samples X c /\ In i (nth c (radius_neighbors eps X) []).

(** ** The analysis pipelines *)

(** The result object of the customer, supplier and country pipelines; the
    product pipeline adds the per-cluster statistics.  [outliers] and
    [clusters] hold the rows, the choice of the columns sent being left out. *)
Record analysis (E : Type) : Type := mkAnalysis {
  total : Z;
  number_of_clusters : Z;
  outliers_count : Z;
  parameters : float * Z;
  outliers : list (E * Z);
  clusters : list (E * Z)
}.

Arguments mkAnalysis {E}.
Arguments total {E}.
Arguments number_of_clusters {E}.
Arguments outliers_count {E}.
Arguments parameters {E}.
Arguments outliers {E}.
Arguments clusters {E}.

Record customer : Type := mkCustomer {
  customer_id : string;
  company_name : string;
  customer_total_orders : float;
  total_spends : float;
  avg_order_value : float
}.

Record supplier : Type := mkSupplier {
  supplier_id : Z;
  supplied_products_count : float;
  total_sales_quantity : float;
  supplier_average_sale_price : float;
  average_customer_count : float
}.

Record country_sales : Type := mkCountry {
  country : string;
  country_total_orders : float;
  average_order_amount : float;
  products_per_order : float
}.

(** A row of the product query: a cell of any column may be NULL. *)
Record product_record : Type := mkProductRecord {
  product_id : option Z;
  product_name : option string;
  raw_average_sale_price : option float;
  raw_total_quantity_sold : option float;
  raw_average_quantity_per_order : option float;
  raw_unique_customers : option float
}.

(** A product row after [pd.to_numeric(..., errors='coerce')]. *)
Record product : Type := mkProduct {
  product_of : product_record;
  average_sale_price : float;
  total_quantity_sold : float;
  average_quantity_per_order : float;
  unique_customers : float
}.

Record cluster_stats : Type := mkStats {
  cluster : Z;
  product_count : Z;
  average_price : float;
  total_quantity : float
}.

Record product_analysis : Type := mkProductAnalysis {
  total_products : Z;
  product_number_of_clusters : Z;
  product_outliers_count : Z;
  product_parameters : float * Z;
  product_outliers : list (product * Z);
  cluster_statistics : list cluster_stats;
  product_clusters : list (product * Z)
}.

(** [pd.to_numeric(cell, errors='coerce')]: NULL becomes nan. *)
Definition to_numeric (cell : option float) : float :=
  match cell with
  | Some v => v
  | None => PrimFloat.nan
  end.

Definition coerce (r : product_record) : product :=
  mkProduct r (to_numeric (raw_average_sale_price r))
              (to_numeric (raw_total_quantity_sold r))
              (to_numeric (raw_average_quantity_per_order r))
              (to_numeric (raw_unique_customers r)).

(** A cell without a value. *)
Definition isna {A : Type} (cell : option A) : bool :=
  match cell with
  | None => true
  | Some _ => false
  end.

(** Some column of the row holds no value; after the coercion a numeric
    column without a value holds nan. *)
Definition has_missing (p : product) : bool :=
  isna (product_id (product_of p))
  || isna (product_name (product_of p))
  || PrimFloat.is_nan (average_sale_price p)
  || PrimFloat.is_nan (total_quantity_sold p)
  || PrimFloat.is_nan (average_quantity_per_order p)
  || PrimFloat.is_nan (unique_customers p).

(** [df.dropna()], called without a subset: a row with a missing value in
    any column is dropped. *)
Definition dropna (df : list product) : list product :=
  filter (fun p => negb (has_missing p)) df.

(** [Series.sum()] and [Series.mean()] on floats. *)
Definition series_sum (l : list float) : float :=
  fold_left PrimFloat.add l 0%float.

Definition series_mean (l : list float) : float :=
  (series_sum l / PrimFloat.of_uint63 (Uint63.of_Z (len l)))%float.

(** [df["cluster"] = labels]: pandas refuses a column of another length. *)
Definition set_cluster {E : Type} (df : list E) (labels : labeling) : result (list (E * Z)) :=
  if (List.length df =? List.length labels)%nat then Ok (combine df labels)
  else Raise (ValueError "Length of values does not match length of index").

(** [len(df['cluster'].unique()) - 1], as all four pipelines compute it. *)
Definition count_clusters {E : Type} (df : list (E * Z)) : Z :=
  len (unique (map snd df)) - 1.

(** Lines 84-93 of product_analysis.py. *)
Definition stats_of (df : list (product * Z)) (c : Z) : cluster_stats :=
  let cluster_data := filter (fun r => snd r =? c) df in
  mkStats c (len cluster_data)
          (series_mean (map (fun r => average_sale_price (fst r)) cluster_data))
          (series_sum (map (fun r => total_quantity_sold (fst r)) cluster_data)).

Definition cluster_stats_of (df : list (product * Z)) : list cluster_stats :=
  map (stats_of df) (sorted (unique (map snd df))).

Section Pipelines.

(** [StandardScaler().fit_transform(X)] *)
Variable StandardScaler_fit_transform : matrix -> result matrix.
Variable KneeLocator_elbow : list float -> result (option nat).
Variable DBSCAN_fit_predict : float -> Z -> matrix -> result labeling.
Variable silhouette_score : matrix -> labeling -> result float.
(** utils.py, [plot_clusters]: the points with their labels go to
    matplotlib, the encoded image comes back. *)
Variable plot_clusters : list (float * float * Z) -> result string.

(** utils.py, [standardize_features]: the scaler's result or its exception. *)
Definition standardize_features (X : matrix) : result matrix :=
  StandardScaler_fit_transform X.

(** The steps the customer, supplier and country pipelines share: features,
    standardization, parameter search over the default range, clustering,
    plot, outliers, result object. *)
Definition analyze {E : Type} (features : E -> row) (x_col y_col : E -> float)
    (df : list E) : result (analysis E) :=
  let X := map features df in
  X_scaled <- standardize_features X ;;
  found <- find_optimal_parameters KneeLocator_elbow DBSCAN_fit_predict
             silhouette_score X_scaled (2, 10) ;;
  labels <- DBSCAN_fit_predict (fst found) (snd found) X_scaled ;;
  df <- set_cluster df labels ;;
  _ <- plot_clusters (map (fun r => (x_col (fst r), y_col (fst r), snd r)) df) ;;
  let outliers := filter (fun r => snd r =? -1) df in
  Ok (mkAnalysis (len df) (count_clusters df) (len outliers) found outliers df).

Definition analyze_customers (df : list customer) : result (analysis customer) :=
  analyze (fun c => [customer_total_orders c; total_spends c; avg_order_value c])
          customer_total_orders total_spends df.

Definition analyze_suppliers (df : list supplier) : result (analysis supplier) :=
  analyze (fun s => [supplied_products_count s; total_sales_quantity s;
                     supplier_average_sale_price s; average_customer_count s])
          supplied_products_count total_sales_quantity df.

Definition analyze_countries (df : list country_sales) : result (analysis country_sales) :=
  analyze (fun c => [country_total_orders c; average_order_amount c; products_per_order c])
          country_total_orders average_order_amount df.

Definition analyze_products (df : list product_record) : result product_analysis :=
  if len df =? 0 then Raise (ValueError "No product data found in the database")
  else
    let df := dropna (map coerce df) in
    if len df =? 0 then Raise (ValueError "No valid numeric data found after cleaning")
    else
      let X := map (fun p => [average_sale_price p; total_quantity_sold p;
                              average_quantity_per_order p; unique_customers p]) df in
      X_scaled <- standardize_features X ;;
      found <- find_optimal_parameters KneeLocator_elbow DBSCAN_fit_predict
                 silhouette_score X_scaled (2, 10) ;;
      labels <- DBSCAN_fit_predict (fst found) (snd found) X_scaled ;;
      df <- set_cluster df labels ;;
      _ <- plot_clusters (map (fun r => (average_sale_price (fst r),
                                         total_quantity_sold (fst r), snd r)) df) ;;
      let outliers := filter (fun r => snd r =? -1) df in
      Ok (mkProductAnalysis (len df) (count_clusters df) (len outliers) found
                            outliers (cluster_stats_of df) df).

End Pipelines.

(** The errors the spec calls NoDataError: the two the product pipeline
    raises itself on a table without usable rows. *)
Definition NoDataError (e : exn) : Prop :=
  e = ValueError "No product data found in the database" \/
  e = ValueError "No valid numeric data found after cleaning".

(** ** Worked inputs

    Stand-ins for the library calls that are taken as parameters, and small
    tables, on which the pipelines are run below. *)

(** A scaler that hands a matrix with rows back as it is and refuses one
    without rows, as the library's input check does. *)
Definition scaler_as_is (X : matrix) : result matrix :=
  if len X =? 0
  then Raise (ValueError "Found array with 0 sample(s) while a minimum of 1 is required by StandardScaler")
  else Ok X.

(** A knee locator that always reports the elbow at index [e]. *)
Definition elbow_at (e : nat) (distances : list float) : result (option nat) :=
  Ok (Some e).

(** A knee locator that never finds an elbow. *)
Definition no_knee (distances : list float) : result (option nat) := Ok None.

(** A scorer that gives every labeling the score [s]. *)
Definition score_const (s : float) (X : matrix) (labels : labeling) : result float :=
  Ok s.

Definition plot_blank (points : list (float * float * Z)) : result string :=
  Ok EmptyString.

(** Ten rows with one feature: 0..4 and 100..104. *)
Definition two_groups : matrix :=
  [[0]; [1]; [2]; [3]; [4]; [100]; [101]; [102]; [103]; [104]]%float.

(** Ten rows with one feature, evenly spaced. *)
Definition one_group : matrix :=
  [[0]; [1]; [2]; [3]; [4]; [5]; [6]; [7]; [8]; [9]]%float.

(** Ten rows with one feature, five times 0 and five times 5. *)
Definition duplicate_rows : matrix :=
  [[0]; [0]; [0]; [0]; [0]; [5]; [5]; [5]; [5]; [5]]%float.

(** A clustering that takes any distance: the rows below 1 form cluster 0,
    the others cluster 1. *)
Definition split_at_one (eps : float) (min_samples : Z) (X : matrix) : result labeling :=
  Ok (map (fun r => if PrimFloat.ltb (nth 0 r 0%float) 1 then 0 else 1) X).

Definition customer_at (v : float) : customer :=
  mkCustomer EmptyString EmptyString v 0%float 0%float.

(** Ten customers in two groups of five: 1..5 and 101..105 orders. *)
Definition ten_customers : list customer :=
  map customer_at [1; 2; 3; 4; 5; 101; 102; 103; 104; 105]%float.

Definition product_at (id : Z) (v : float) : product_record :=
  mkProductRecord (Some id) (Some EmptyString)
                  (Some v) (Some 0%float) (Some 0%float) (Some 0%float).

(** Ten products in the same two groups, one whose price is NULL and one far
    from both groups. *)
Definition twelve_products : list product_record :=
  [product_at 1 0; product_at 2 1; product_at 3 2; product_at 4 3; product_at 5 4;
   mkProductRecord (Some 6%Z) (Some EmptyString)
                   None (Some 0%float) (Some 0%float) (Some 0%float);
   product_at 7 100; product_at 8 101; product_at 9 102; product_at 10 103;
   product_at 11 104; product_at 12 50]%float.

(** Three rows with one feature. *)
Definition three_rows : matrix := [[0]; [3]; [4]]%float.

Definition three_customers : list customer := map customer_at [1; 4; 5]%float.

Definition three_suppliers : list supplier :=
  map (fun v => mkSupplier 1 v 0%float 0%float 0%float) [1; 4; 5]%float.

Definition three_countries : list country_sales :=
  map (fun v => mkCountry EmptyString v 0%float 0%float) [1; 4; 5]%float.

(** The ten customers of [ten_customers] and one far from both groups. *)
Definition eleven_customers : list customer :=
  map customer_at [1; 2; 3; 4; 5; 101; 102; 103; 104; 105; 51]%float.

(** A product whose price is NULL. *)
Definition unpriced_product : product_record :=
  mkProductRecord (Some 1) (Some EmptyString)
                  None (Some 0%float) (Some 0%float) (Some 0%float).



(** ** Invariants of the clustering and auxiliary notions *)

(** The number of rows still at -1. *)
Definition unset (labels : labeling) : nat :=
  List.length (filter (fun c => c =? -1) labels).

(** Every label is -1 or a cluster number below [k]. *)
Definition within (k : Z) (labels : labeling) : Prop :=
  Forall (fun c => -1 <= c < k) labels.

(** Labels once set are kept. *)
Definition keeps (labels labels' : labeling) : Prop :=
  List.length labels' = List.length labels /\
  forall j, label_at labels j <> -1 -> label_at labels' j = label_at labels j.

(** What holds of the labels between two rows of the outer loop, [k]
    clusters having been started. *)
Definition numbered (n : nat) (k : Z) (labels : labeling) : Prop :=
  0 <= k /\ List.length labels = n /\ within k labels /\
  forall c, 0 <= c < k -> In c labels.

Section Reach.

Variable neighborhoods : list (list nat).
Variable is_core : list bool.

(** Row [j] is a core row or lies in the neighbourhood of one. *)
Definition reached (j : nat) : Prop :=
  nth j is_core false = true \/
  exists c, nth c is_core false = true /\ In j (nth c neighborhoods []).

(** Only reached rows carry a label. *)
Definition sound (labels : labeling) : Prop :=
  forall j, (j < List.length labels)%nat -> label_at labels j <> -1 -> reached j.

(** The neighbours of a labelled core row are labelled or wait in [todo]. *)
Definition spreading (todo : list nat) (labels : labeling) : Prop :=
  forall c j, nth c is_core false = true -> label_at labels c <> -1 ->
              In j (nth c neighborhoods []) ->
              label_at labels j <> -1 \/ In j todo.

End Reach.

(** The sum of the counts of the entries. *)
Definition total_count (stats : list cluster_stats) : Z :=
  fold_right Z.add 0 (map product_count stats).

(** ** app.py: the HTTP layer *)

(** What a route hands back: the result object, sent as JSON, or an
    [HTTPException]. *)
Inductive response (A : Type) : Type :=
| Json (body : A)
| HTTPException (status_code : Z) (detail : string).

Arguments Json {A} body.
Arguments HTTPException {A} status_code detail.

(** [str(e)]: the message the exception was raised with. *)
Definition str (e : exn) : string :=
  match e with
  | ValueError msg => msg
  | IndexError msg => msg
  | LibraryError msg => msg
  end.

(** The body shared by the four routes: [try: return analyze() except
    Exception as e: raise HTTPException(status_code=500, detail=str(e))]. *)
Definition route {A : Type} (analysis_result : result A) : response A :=
  match analysis_result with
  | Ok body => Json body
  | Raise e => HTTPException 500 (str e)
  end.

Section Routes.

Variable StandardScaler_fit_transform : matrix -> result matrix.
Variable KneeLocator_elbow : list float -> result (option nat).
Variable DBSCAN_fit_predict : float -> Z -> matrix -> result labeling.
Variable silhouette_score : matrix -> labeling -> result float.
Variable plot_clusters : list (float * float * Z) -> result string.

(** [GET /api/customers], the table being what the query returns. *)
Definition get_customer_analysis (df : list customer) : response (analysis customer) :=
  route (analyze_customers StandardScaler_fit_transform KneeLocator_elbow
           DBSCAN_fit_predict silhouette_score plot_clusters df).

(** [GET /api/products] *)
Definition get_product_analysis (df : list product_record) : response product_analysis :=
  route (analyze_products StandardScaler_fit_transform KneeLocator_elbow
           DBSCAN_fit_predict silhouette_score plot_clusters df).

(** [GET /api/suppliers] *)
Definition get_supplier_analysis (df : list supplier) : response (analysis supplier) :=
  route (analyze_suppliers StandardScaler_fit_transform KneeLocator_elbow
           DBSCAN_fit_predict silhouette_score plot_clusters df).

(** [GET /api/countries] *)
Definition get_country_analysis (df : list country_sales)
  : response (analysis country_sales) :=
  route (analyze_countries StandardScaler_fit_transform KneeLocator_elbow
           DBSCAN_fit_predict silhouette_score plot_clusters df).

End Routes.

(** ** Notions used by the further properties *)


(** The labels of [labels] other than the noise label. *)
Definition cluster_labels (labels : labeling) : labeling :=
  filter (fun c => negb (c =? -1)) labels.

(* ================================================================= *)
(** * Properties *)

(** ** The definitions on small inputs *)

Example range_2_10 : range 2 (10 + 1) = [2; 3; 4; 5; 6; 7; 8; 9; 10].
Proof. reflexivity. Qed.

Example np_sort_nan_last :
  np_sort [3; PrimFloat.nan; 1; 2]%float = [1; 2; 3; PrimFloat.nan]%float.
Proof. vm_compute. reflexivity. Qed.

Example unique_first_appearance : unique [1; -1; 1; 0; -1] = [1; -1; 0].
Proof. reflexivity. Qed.

Example np_unique_sorted : np_unique [1; -1; 1; 0; -1] = [-1; 0; 1].
Proof. reflexivity. Qed.

Example kneighbors_counts_the_row_itself :
  kneighbors 2 [[0]; [3]; [4]]%float = Ok [[0; 3]; [0; 1]; [0; 1]]%float.
Proof. vm_compute. reflexivity. Qed.

Example kneighbors_beyond_rows :
  kneighbors 4 [[0]; [3]; [4]]%float
  = Raise (ValueError "Expected n_neighbors <= n_samples_fit").
Proof. vm_compute. reflexivity. Qed.

Example dbscan_far_row_is_noise :
  dbscan 1 3 [[0; 0; 0]; [0; 0; 1]; [0; 1; 0]; [1; 0; 0]; [0; 0; 0];
              [1000; 1000; 1000]]%float
  = Ok [0; 0; 0; 0; 0; -1].
Proof. vm_compute. reflexivity. Qed.

Example defaults_as_in_config :
  chosen initial = (DEFAULT_EPS, DEFAULT_MIN_SAMPLES).
Proof. reflexivity. Qed.

(** ** Order on binary64 numbers *)

Lemma SFcompare_antisym (x y : spec_float) :
  SFcompare x y = Some Lt -> SFcompare y x = Some Gt.
Proof.
  destruct x as [s1 | s1 | | s1 m1 e1], y as [s2 | s2 | | s2 m2 e2]; simpl;
    try destruct s1; try destruct s2; try congruence.
  all: rewrite (Z.compare_antisym e1 e2);
    change (PosDef.Pos.compare_cont Eq m2 m1) with (Pos.compare m2 m1);
    change (PosDef.Pos.compare_cont Eq m1 m2) with (Pos.compare m1 m2);
    rewrite (Pos.compare_antisym m1 m2);
    destruct (e1 ?= e2)%Z; simpl; try congruence;
    destruct (m1 ?= m2)%positive; simpl; congruence.
Qed.

Lemma ltb_asym (a b : float) :
  PrimFloat.ltb a b = true -> PrimFloat.ltb b a = false.
Proof.
  rewrite !ltb_spec. unfold SFltb. intros H.
  destruct (SFcompare (Prim2SF a) (Prim2SF b)) as [[]|] eqn:E; try discriminate.
  rewrite (SFcompare_antisym _ _ E). reflexivity.
Qed.

Lemma ltb_irrefl (a : float) : PrimFloat.ltb a a = false.
Proof.
  destruct (PrimFloat.ltb a a) eqn:E; [|reflexivity].
  pose proof (ltb_asym _ _ E). congruence.
Qed.

(** ** Ranges *)

Lemma in_range (lo hi m : Z) : In m (range lo hi) <-> lo <= m < hi.
Proof.
  unfold range. rewrite in_map_iff. split.
  - intros (i & <- & Hi). apply in_seq in Hi. lia.
  - intros H. exists (Z.to_nat (m - lo)). split; [lia|].
    apply in_seq. lia.
Qed.

Lemma map_seq_from (A : Type) (f : nat -> A) (s n : nat) :
  map f (seq s n) = map (fun i => f (s + i)%nat) (seq 0 n).
Proof.
  revert s f. induction n as [|n IH]; intros s f; simpl; [reflexivity|].
  rewrite Nat.add_0_r. f_equal.
  rewrite (IH (S s)), (IH 1%nat). apply map_ext. intros i.
  f_equal. lia.
Qed.

Lemma range_split (lo hi m : Z) :
  lo <= m < hi -> range lo hi = range lo m ++ m :: range (m + 1) hi.
Proof.
  intros H. unfold range.
  replace (Z.to_nat (hi - lo))
    with (Z.to_nat (m - lo) + S (Z.to_nat (hi - (m + 1))))%nat by lia.
  rewrite seq_app, map_app. f_equal. simpl. f_equal; [lia|].
  rewrite map_seq_from. apply map_ext. intros i. lia.
Qed.

(** ** The parameter search *)

Section ParameterSearchFacts.

Variable KneeLocator_elbow : list float -> result (option nat).
Variable DBSCAN_fit_predict : float -> Z -> matrix -> result labeling.
Variable silhouette_score : matrix -> labeling -> result float.
Variable X : matrix.

Abbreviation try_m := (try_min_samples KneeLocator_elbow DBSCAN_fit_predict silhouette_score X).
Abbreviation body := (loop_body KneeLocator_elbow DBSCAN_fit_predict silhouette_score X).
Abbreviation loop := (for_each KneeLocator_elbow DBSCAN_fit_predict silhouette_score X).
Abbreviation skip := (skipped KneeLocator_elbow DBSCAN_fit_predict X).

Lemma for_each_app (l1 l2 : list Z) (st : search) :
  loop (l1 ++ l2) st = (st' <- loop l1 st ;; loop l2 st').
Proof.
  revert st. induction l1 as [|m l1 IH]; intros st; simpl; [reflexivity|].
  destruct (body st m) as [st1|e]; simpl; [apply IH|reflexivity].
Qed.

Lemma skipped_trial (m : Z) :
  skip m -> try_m m = Ok NoElbow \/ exists eps, try_m m = Ok (InvalidClustering eps).
Proof.
  unfold try_min_samples.
  intros [Hn | (eps & labels & He & Hd & Hu)].
  - left. unfold no_elbow in Hn. rewrite Hn. reflexivity.
  - right. exists eps. rewrite He. simpl. rewrite Hd. simpl.
    apply Z.leb_le in Hu. rewrite Hu. reflexivity.
Qed.

Lemma skipped_body (m : Z) (st : search) : skip m -> body st m = Ok st.
Proof.
  intros H. unfold loop_body.
  destruct (skipped_trial m H) as [E | (eps & E)]; rewrite E; reflexivity.
Qed.

Lemma all_skipped_loop (ms : list Z) (st : search) :
  (forall m, In m ms -> skip m) -> loop ms st = Ok st.
Proof.
  induction ms as [|m ms IH]; intros H; simpl; [reflexivity|].
  rewrite skipped_body by (apply H; left; reflexivity). simpl.
  apply IH. intros m' Hm'. apply H. right. exact Hm'.
Qed.

Abbreviation recorded :=
  (recorded_from KneeLocator_elbow DBSCAN_fit_predict silhouette_score X).
Abbreviation find :=
  (find_optimal_parameters KneeLocator_elbow DBSCAN_fit_predict silhouette_score X).

(** C2. When every candidate of the range [lo..hi] is skipped, for lack of
    an elbow or for a labeling with at most one distinct value, the search
    returns the pair (0.3, 3). *)
Theorem no_survivor_returns_defaults (lo hi : Z) :
  (forall m, lo <= m <= hi -> skipped KneeLocator_elbow DBSCAN_fit_predict X m) ->
  find_optimal_parameters KneeLocator_elbow DBSCAN_fit_predict silhouette_score X (lo, hi)
  = Ok (0x1.3333333333333p-2%float, 3).
Proof.
  intros H. unfold find_optimal_parameters. simpl fst. simpl snd.
  rewrite all_skipped_loop.
  - reflexivity.
  - intros m Hm. apply in_range in Hm. apply H. lia.
Qed.

(** C4. A candidate without an elbow, or whose labeling has at most one
    distinct value, leaves the search state as it was and the loop goes on
    with the next candidate: the pass raises nothing, and the loop over a
    list of candidates containing it ends as the loop over the list without
    it, so the defaults are returned only if the other candidates leave
    nothing recorded either. *)
Theorem skipped_candidate_continues (m : Z) :
  skipped KneeLocator_elbow DBSCAN_fit_predict X m ->
  (forall st, loop_body KneeLocator_elbow DBSCAN_fit_predict silhouette_score X st m = Ok st) /\
  (forall st ms,
     for_each KneeLocator_elbow DBSCAN_fit_predict silhouette_score X (m :: ms) st =
     for_each KneeLocator_elbow DBSCAN_fit_predict silhouette_score X ms st) /\
  (forall st before after,
     for_each KneeLocator_elbow DBSCAN_fit_predict silhouette_score X (before ++ m :: after) st =
     for_each KneeLocator_elbow DBSCAN_fit_predict silhouette_score X (before ++ after) st).
Proof.
  intros H. split; [|split].
  - intros st. apply skipped_body. exact H.
  - intros st ms. simpl. rewrite skipped_body by exact H. reflexivity.
  - intros st before after. rewrite !for_each_app.
    destruct (loop before st) as [st1|e]; simpl; [|reflexivity].
    rewrite skipped_body by exact H. reflexivity.
Qed.

Lemma recorded_from_mono (seen seen' : list Z) (st : search) :
  incl seen seen' -> recorded seen st -> recorded seen' st.
Proof.
  intros Hi [H | (m & e & Hm & H)]; [left; exact H|].
  right. exists m, e. split; [apply Hi; exact Hm | exact H].
Qed.

Lemma loop_recorded (ms seen : list Z) (st st' : search) :
  recorded seen st -> loop ms st = Ok st' -> recorded (seen ++ ms) st'.
Proof.
  revert seen st. induction ms as [|m ms IH]; intros seen st Hst Hl; simpl in Hl.
  - injection Hl as <-. rewrite app_nil_r. exact Hst.
  - unfold loop_body in Hl. destruct (try_m m) as [t|e] eqn:Et; simpl in Hl; [|discriminate].
    replace (seen ++ m :: ms) with ((seen ++ [m]) ++ ms) by (rewrite <- app_assoc; reflexivity).
    refine (IH _ _ _ Hl). clear IH Hl.
    assert (Hmono : recorded (seen ++ [m]) st)
      by (apply (recorded_from_mono seen); [apply incl_appl, incl_refl | exact Hst]).
    destruct t as [| eps | eps score]; simpl; try exact Hmono.
    destruct (float_gt score (best_score st)); [|exact Hmono].
    right. exists m, eps. simpl. repeat split; try reflexivity.
    + apply in_or_app. right. left. reflexivity.
    + exact Et.
Qed.

Lemma scored_trial (m : Z) (e s : float) :
  try_m m = Ok (Scored e s) ->
  exists labels,
    elbow_eps KneeLocator_elbow X m = Ok (Some e) /\
    DBSCAN_fit_predict e m X = Ok labels /\
    1 < len (np_unique labels) /\
    silhouette_score X labels = Ok s.
Proof.
  unfold try_min_samples. intros H.
  destruct (elbow_eps KneeLocator_elbow X m) as [[eps|]|ex]; simpl in H; try discriminate.
  destruct (DBSCAN_fit_predict eps m X) as [labels|ex] eqn:Ed; simpl in H; [|discriminate].
  destruct (len (np_unique labels) <=? 1) eqn:El; [discriminate|].
  destruct (silhouette_score X labels) as [sc|ex] eqn:Es; simpl in H; [|discriminate].
  injection H as -> ->. exists labels. apply Z.leb_gt in El. repeat split; assumption.
Qed.

Lemma loop_recorded_range (lo hi : Z) (st : search) :
  loop (range lo (hi + 1)) initial = Ok st ->
  recorded (range lo (hi + 1)) st.
Proof.
  intros H. apply (loop_recorded _ [] initial); [|exact H].
  left. repeat split.
Qed.

(** C8. Given that the clustering primitive refuses a distance that is not
    above zero (scikit-learn's DBSCAN raises on it), every pair the search
    returns over a range that starts at 2 or more has a distance above zero
    and at least 2 samples; the pair is the default one or lies in the
    range. *)
Theorem selected_parameters_valid (lo hi : Z) (eps : float) (min_samples : Z) :
  (forall e m l, DBSCAN_fit_predict e m X = Ok l -> PrimFloat.ltb 0 e = true) ->
  2 <= lo ->
  find_optimal_parameters KneeLocator_elbow DBSCAN_fit_predict silhouette_score X (lo, hi)
  = Ok (eps, min_samples) ->
  PrimFloat.ltb 0 eps = true /\ 2 <= min_samples.
Proof.
  intros Hdb Hlo H. unfold find_optimal_parameters in H. simpl fst in H. simpl snd in H.
  destruct (loop (range lo (hi + 1)) initial) as [st|ex] eqn:El; simpl in H; [|discriminate].
  apply loop_recorded_range in El. unfold chosen in H.
  destruct El as [(He & Hm & _) | (m & e & Hin & He & Hm & Ht)].
  - rewrite He in H. injection H as <- <-. split; [reflexivity | lia].
  - rewrite He, Hm in H. injection H as <- <-.
    apply in_range in Hin. apply scored_trial in Ht.
    destruct Ht as (labels & _ & Hd & _). split; [|lia].
    exact (Hdb _ _ _ Hd).
Qed.

Lemma loop_total (ms : list Z) (st : search) :
  (forall m, In m ms -> exists t, try_m m = Ok t) ->
  exists st', loop ms st = Ok st'.
Proof.
  revert st. induction ms as [|m ms IH]; intros st H; simpl.
  - exists st. reflexivity.
  - destruct (H m (or_introl eq_refl)) as [t Et]. unfold loop_body.
    rewrite Et. simpl. apply IH. intros m' Hm'. apply H. right. exact Hm'.
Qed.

Lemma loop_not_exceeded (ms : list Z) (st : search) :
  (forall m, In m ms -> exists t, try_m m = Ok t) ->
  (forall m e s, In m ms -> try_m m = Ok (Scored e s) ->
                 float_gt s (best_score st) = false) ->
  loop ms st = Ok st.
Proof.
  induction ms as [|m ms IH]; intros Hok Hle; simpl; [reflexivity|].
  destruct (Hok m (or_introl eq_refl)) as [t Et]. unfold loop_body.
  rewrite Et. simpl.
  assert (Hrec : record_trial st m t = st).
  { destruct t as [| eps | eps score]; simpl; try reflexivity.
    rewrite (Hle m eps score (or_introl eq_refl) Et). reflexivity. }
  rewrite Hrec. apply IH.
  - intros m' Hm'. apply Hok. right. exact Hm'.
  - intros m' e s Hm'. apply Hle. right. exact Hm'.
Qed.

Lemma first_best_selected (lo hi m : Z) (e s : float) :
  first_best KneeLocator_elbow DBSCAN_fit_predict silhouette_score X lo hi m e s ->
  find (lo, hi) = Ok (e, m).
Proof.
  intros (Hm & Ht & Hinf & Hok & Hbefore & Hafter).
  unfold find_optimal_parameters. simpl fst. simpl snd.
  rewrite (range_split lo (hi + 1) m) by lia.
  rewrite for_each_app.
  destruct (loop_total (range lo m) initial) as [st1 E1].
  { intros m' Hm'. apply in_range in Hm'. apply Hok. lia. }
  rewrite E1. simpl. unfold loop_body at 1. rewrite Ht. simpl.
  assert (Hgt : float_gt s (best_score st1) = true).
  { assert (Hinit : recorded [] initial) by (left; repeat split).
    pose proof (loop_recorded _ _ _ _ Hinit E1) as R1. simpl in R1.
    destruct R1 as [(_ & _ & ->) | (m' & e' & Hin & _ & _ & Ht')]; [exact Hinf|].
    apply in_range in Hin. exact (Hbefore m' e' _ Hin Ht'). }
  rewrite Hgt. rewrite loop_not_exceeded.
  - reflexivity.
  - intros m' Hm'. apply in_range in Hm'. apply Hok. lia.
  - intros m' e' s' Hm' Ht'. apply in_range in Hm'. simpl.
    destruct (Hafter m' e' s' ltac:(lia) Ht') as [-> | Hlt].
    + apply ltb_irrefl.
    + unfold float_gt in *. apply ltb_asym. exact Hlt.
Qed.

End ParameterSearchFacts.

(** C5. The search result is a function of the matrix, the range and the
    outcomes of the candidates alone, each call starting from a fresh state:
    two runs in which every candidate of the range has the same outcome
    return the same result.  And a candidate whose score is above every
    earlier score and not below any later one is the pair returned, also when
    later candidates reach exactly its score, the comparison of line 79
    being strict. *)
Theorem search_deterministic_first_best_wins
    (K : list float -> result (option nat))
    (D : float -> Z -> matrix -> result labeling)
    (S : matrix -> labeling -> result float) (X : matrix) (lo hi : Z) :
  (forall K' D' S',
     (forall m, lo <= m <= hi -> try_min_samples K' D' S' X m = try_min_samples K D S X m) ->
     find_optimal_parameters K' D' S' X (lo, hi) = find_optimal_parameters K D S X (lo, hi)) /\
  (forall m e s,
     first_best K D S X lo hi m e s ->
     find_optimal_parameters K D S X (lo, hi) = Ok (e, m)).
Proof.
  split.
  - intros K' D' S' Hsame. unfold find_optimal_parameters. simpl fst. simpl snd.
    f_equal.
    assert (Hin : forall m, In m (range lo (hi + 1)) -> lo <= m <= hi)
      by (intros m Hm; apply in_range in Hm; lia).
    revert Hin. generalize initial. generalize (range lo (hi + 1)).
    induction l as [|m ms IH]; intros st Hin; simpl; [reflexivity|].
    unfold loop_body. rewrite (Hsame m) by (apply Hin; left; reflexivity).
    destruct (try_min_samples K D S X m) as [t|ex]; simpl; [|reflexivity].
    apply IH. intros m' Hm'. apply Hin. right. exact Hm'.
  - intros m e s H. exact (first_best_selected K D S X lo hi m e s H).
Qed.

(** ** numpy's order on binary64 numbers and [np.sort] *)

Lemma SFcompare_refl (x : spec_float) :
  SFcompare x x = if sf_nan x then None else Some Eq.
Proof.
  destruct x as [s | s | | s m e]; simpl; try destruct s; try reflexivity.
  all: rewrite Z.compare_refl;
    change (PosDef.Pos.compare_cont Eq m m) with (Pos.compare m m);
    rewrite Pos.compare_refl; reflexivity.
Qed.

Lemma SFcompare_nan_r (x y : spec_float) : sf_nan y = true -> SFcompare x y = None.
Proof. destruct x as [s | s | | s m e], y; simpl; try discriminate; reflexivity. Qed.

Lemma SFcompare_some (x y : spec_float) :
  sf_nan x = false -> sf_nan y = false -> exists c, SFcompare x y = Some c.
Proof.
  destruct x as [s | s | | s m e], y as [s' | s' | | s' m' e']; simpl;
    try discriminate; eauto.
Qed.

Lemma SFcompare_gt_lt (x y : spec_float) :
  SFcompare x y = Some Gt -> SFcompare y x = Some Lt.
Proof.
  destruct x as [s1 | s1 | | s1 m1 e1], y as [s2 | s2 | | s2 m2 e2]; simpl;
    try destruct s1; try destruct s2; try congruence.
  all: rewrite (Z.compare_antisym e1 e2);
    change (PosDef.Pos.compare_cont Eq m2 m1) with (Pos.compare m2 m1);
    change (PosDef.Pos.compare_cont Eq m1 m2) with (Pos.compare m1 m2);
    rewrite (Pos.compare_antisym m1 m2);
    destruct (e1 ?= e2)%Z; simpl; try congruence;
    destruct (m1 ?= m2)%positive; simpl; congruence.
Qed.

Lemma SFcompare_le_trans (x y z : spec_float) (c1 c2 : comparison) :
  SFcompare x y = Some c1 -> c1 <> Gt ->
  SFcompare y z = Some c2 -> c2 <> Gt ->
  exists c3, SFcompare x z = Some c3 /\ c3 <> Gt.
Proof.
  destruct x as [s1 | s1 | | s1 m1 e1], y as [s2 | s2 | | s2 m2 e2],
           z as [s3 | s3 | | s3 m3 e3]; simpl;
    try destruct s1; try destruct s2; try destruct s3;
    intros H1 N1 H2 N2; try discriminate;
    try (injection H1 as <-); try (injection H2 as <-);
    try congruence;
    try (eexists; split; [reflexivity | congruence]).
  all: revert N1 N2;
    change (PosDef.Pos.compare_cont Eq m1 m2) with (Pos.compare m1 m2);
    change (PosDef.Pos.compare_cont Eq m2 m3) with (Pos.compare m2 m3);
    change (PosDef.Pos.compare_cont Eq m1 m3) with (Pos.compare m1 m3);
    destruct (Z.compare_spec e1 e2), (Z.compare_spec e2 e3), (Z.compare_spec e1 e3);
    try lia; simpl; intros N1 N2; try congruence;
    try (eexists; split; [reflexivity | congruence]);
    destruct (Pos.compare_spec m1 m2), (Pos.compare_spec m2 m3), (Pos.compare_spec m1 m3);
    simpl in *; try lia; try congruence;
    try (eexists; split; [reflexivity | congruence]).
Qed.

Lemma np_le_spec (a b : float) :
  np_le a b = true <->
  sf_nan (Prim2SF b) = true \/
  exists c, SFcompare (Prim2SF a) (Prim2SF b) = Some c /\ c <> Gt.
Proof.
  unfold np_le, PrimFloat.is_nan. rewrite leb_spec, eqb_spec.
  unfold SFleb, SFeqb. rewrite (SFcompare_refl (Prim2SF b)).
  destruct (sf_nan (Prim2SF b)) eqn:Eb.
  - rewrite (SFcompare_nan_r _ _ Eb). simpl. tauto.
  - rewrite orb_false_r.
    destruct (SFcompare (Prim2SF a) (Prim2SF b)) as [[]|]; split; intros H;
      try reflexivity; try discriminate.
    + right. eexists. split; [reflexivity | congruence].
    + right. eexists. split; [reflexivity | congruence].
    + destruct H as [H | (c & H & N)]; [discriminate | congruence].
    + destruct H as [H | (c & H & N)]; [discriminate | congruence].
Qed.

Lemma np_le_refl (a : float) : np_le a a = true.
Proof.
  apply np_le_spec. rewrite SFcompare_refl.
  destruct (sf_nan (Prim2SF a)); [left; reflexivity|].
  right. eexists. split; [reflexivity | congruence].
Qed.

Lemma np_le_total (a b : float) : np_le a b = true \/ np_le b a = true.
Proof.
  rewrite !np_le_spec.
  destruct (sf_nan (Prim2SF b)) eqn:Eb; [auto|].
  destruct (sf_nan (Prim2SF a)) eqn:Ea; [auto|].
  destruct (SFcompare_some _ _ Ea Eb) as [c Hc].
  destruct c.
  - left. right. eexists. split; [exact Hc | congruence].
  - left. right. eexists. split; [exact Hc | congruence].
  - right. right. exists Lt. split; [apply SFcompare_gt_lt; exact Hc | congruence].
Qed.

Lemma np_le_trans (a b c : float) :
  np_le a b = true -> np_le b c = true -> np_le a c = true.
Proof.
  rewrite !np_le_spec. intros Hab [Hc | (c2 & H2 & N2)]; [auto|].
  destruct Hab as [Hb | (c1 & H1 & N1)].
  - destruct (Prim2SF b); simpl in *; discriminate.
  - right. exact (SFcompare_le_trans _ _ _ _ _ H1 N1 H2 N2).
Qed.

Lemma np_insert_perm (a : float) (l : list float) : Permutation (np_insert a l) (a :: l).
Proof.
  induction l as [|b l IH]; simpl; [reflexivity|].
  destruct (np_le a b); [reflexivity|].
  rewrite IH. apply perm_swap.
Qed.

Lemma np_sort_perm (l : list float) : Permutation (np_sort l) l.
Proof.
  induction l as [|a l IH]; simpl; [reflexivity|].
  rewrite np_insert_perm. constructor. exact IH.
Qed.

Lemma np_insert_ascending (a : float) (l : list float) :
  ascending l -> ascending (np_insert a l).
Proof.
  unfold ascending. induction l as [|b l IH]; intros Hs; simpl.
  - constructor; constructor.
  - inversion Hs as [|? ? Hs' Hb]; subst.
    destruct (np_le a b) eqn:E.
    + constructor; [exact Hs|]. constructor; [exact E|].
      eapply Forall_impl; [|exact Hb]. simpl. intros c Hc.
      exact (np_le_trans _ _ _ E Hc).
    + assert (Hba : np_le b a = true)
        by (destruct (np_le_total a b) as [H|H]; [congruence | exact H]).
      constructor; [apply IH; exact Hs'|].
      apply Forall_forall. intros c Hc.
      apply (Permutation_in _ (np_insert_perm a l)) in Hc.
      destruct Hc as [<- | Hc]; [exact Hba|].
      exact (proj1 (Forall_forall _ _) Hb c Hc).
Qed.

Lemma np_sort_ascending (l : list float) : ascending (np_sort l).
Proof.
  induction l as [|a l IH]; simpl; [constructor|].
  apply np_insert_ascending. exact IH.
Qed.

Lemma ascending_split (l1 l2 : list float) (d : float) :
  ascending (l1 ++ d :: l2) ->
  Forall (fun a => np_le a d = true) l1 /\ Forall (fun a => np_le d a = true) l2.
Proof.
  unfold ascending. induction l1 as [|a l1 IH]; simpl; intros Hs.
  - inversion Hs; subst. split; [constructor | assumption].
  - inversion Hs as [|? ? Hs' Ha]; subst. destruct (IH Hs') as [H1 H2].
    split; [|exact H2]. constructor; [|exact H1].
    apply (proj1 (Forall_forall _ _) Ha). apply in_or_app. right. left. reflexivity.
Qed.

Lemma filter_perm_length (A : Type) (f : A -> bool) (l l' : list A) :
  Permutation l l' -> List.length (filter f l) = List.length (filter f l').
Proof.
  induction 1 as [| x l l' _ IH | x y l | l l' l'' _ IH1 _ IH2]; simpl.
  - reflexivity.
  - destruct (f x); simpl; rewrite IH; reflexivity.
  - destruct (f x), (f y); reflexivity.
  - congruence.
Qed.

Lemma filter_all (A : Type) (f : A -> bool) (l : list A) :
  Forall (fun a => f a = true) l -> filter f l = l.
Proof.
  induction 1 as [|a l Ha _ IH]; simpl; [reflexivity|]. rewrite Ha, IH. reflexivity.
Qed.

Lemma filter_none (A : Type) (f : A -> bool) (l : list A) :
  Forall (fun a => f a = false) l -> filter f l = [].
Proof.
  induction 1 as [|a l Ha _ IH]; simpl; [reflexivity|]. rewrite Ha, IH. reflexivity.
Qed.

(** In an ascending list the element at index [k] has at most [k] elements
    strictly before it in the order and at least [k + 1] elements not after
    it. *)
Lemma ascending_nth (s : list float) (k : nat) (d : float) :
  ascending s -> nth_error s k = Some d ->
  (List.length (filter (fun a => np_lt a d) s) <= k)%nat /\
  (k + 1 <= List.length (filter (fun a => np_le a d) s))%nat.
Proof.
  intros Hs Hk. destruct (nth_error_split _ _ Hk) as (l1 & l2 & -> & Hl).
  destruct (ascending_split l1 l2 d Hs) as [H1 H2].
  rewrite !filter_app, !length_app. simpl.
  rewrite np_le_refl. unfold np_lt at 2. rewrite np_le_refl. simpl.
  rewrite (filter_all _ _ l1 H1).
  rewrite (filter_none _ (fun a => np_lt a d) l2).
  - pose proof (filter_length_le (fun a => np_lt a d) l1). simpl. lia.
  - eapply Forall_impl; [|exact H2]. simpl. intros a Ha.
    unfold np_lt. rewrite Ha. apply andb_false_r.
Qed.

Lemma filter_map_length (A B : Type) (f : B -> bool) (g : A -> B) (l : list A) :
  List.length (filter f (map g l)) = List.length (filter (fun a => f (g a)) l).
Proof.
  induction l as [|a l IH]; simpl; [reflexivity|].
  destruct (f (g a)); simpl; rewrite IH; reflexivity.
Qed.

Lemma Forall2_map_r (A B : Type) (P : A -> B -> Prop) (f : A -> B) (l : list A) :
  (forall a, In a l -> P a (f a)) -> Forall2 P l (map f l).
Proof.
  induction l as [|a l IH]; intros H; simpl; constructor.
  - apply H. left. reflexivity.
  - apply IH. intros b Hb. apply H. right. exact Hb.
Qed.

(** ** The candidate distance *)

Lemma column_kneighbors (m : Z) (X : matrix) :
  1 <= m ->
  column (Z.to_nat (m - 1))
         (map (fun x => firstn (Z.to_nat m) (np_sort (map (euclidean x) X))) X)
  = map (kth_nearest_distance m X) X.
Proof.
  intros Hm. unfold column. rewrite map_map. apply map_ext. intros x.
  unfold kth_nearest_distance. rewrite nth_firstn.
  replace (Z.to_nat (m - 1) <? Z.to_nat m)%nat with true; [reflexivity|].
  symmetry. apply Nat.ltb_lt. lia.
Qed.

Lemma elbow_eps_curve (K : list float -> result (option nat)) (X : matrix) (m : Z) :
  1 <= m <= len X ->
  elbow_eps K X m =
    (elbow <- K (k_distance_curve m X) ;;
     match elbow with
     | None => Ok None
     | Some e => eps <- index (k_distance_curve m X) e ;; Ok (Some eps)
     end).
Proof.
  intros [H1 H2]. unfold elbow_eps, kneighbors.
  replace (m <=? 0) with false by (symmetry; apply Z.leb_gt; lia).
  replace (len X <? m) with false by (symmetry; apply Z.ltb_ge; lia).
  simpl. rewrite column_kneighbors by exact H1. reflexivity.
Qed.

(** The [m]-th entry of the sorted distances from [x] is the distance to the
    [m]-th nearest row in the sense of the spec. *)
Lemma kth_nearest_distance_spec (m : Z) (X : matrix) (x : row) :
  1 <= m <= len X ->
  is_kth_nearest_distance m X x (kth_nearest_distance m X x).
Proof.
  intros Hm. unfold kth_nearest_distance.
  set (dists := map (euclidean x) X).
  set (k := Z.to_nat (m - 1)).
  assert (Hp := np_sort_perm dists).
  assert (Hlen : List.length (np_sort dists) = List.length X)
    by (rewrite (Permutation_length Hp); unfold dists; apply length_map).
  assert (Hk : (k < List.length (np_sort dists))%nat)
    by (unfold len in Hm; lia).
  assert (Hn : nth_error (np_sort dists) k = Some (nth k (np_sort dists) PrimFloat.nan))
    by (apply nth_error_nth'; exact Hk).
  set (d := nth k (np_sort dists) PrimFloat.nan) in *.
  destruct (ascending_nth _ _ _ (np_sort_ascending dists) Hn) as [Hlt Hle].
  rewrite (filter_perm_length _ (fun a => np_lt a d) _ _ Hp) in Hlt.
  rewrite (filter_perm_length _ (fun a => np_le a d) _ _ Hp) in Hle.
  unfold dists in Hlt, Hle.
  rewrite (filter_map_length _ _ (fun a => np_lt a d)) in Hlt.
  rewrite (filter_map_length _ _ (fun a => np_le a d)) in Hle.
  split; [|split].
  - assert (Hin : In d dists)
      by (apply (Permutation_in _ Hp); apply nth_error_In with k; exact Hn).
    apply in_map_iff in Hin. destruct Hin as (y & Hy & Hyin). eauto.
  - unfold len. lia.
  - unfold len. lia.
Qed.

(** C3. The distance handed to the clustering for a candidate [m] is the
    value, at the elbow index, of the k-distance curve of [m].  That curve is
    in ascending order and holds, up to the order, one distance per row of
    the matrix: for each row the Euclidean distance to its [m]-th nearest
    row, the row itself counted in the query of size [m] (fewer than [m]
    rows are strictly nearer, at least [m] rows are within it). *)
Theorem candidate_eps_is_elbow_of_k_distance_curve
    (K : list float -> result (option nat)) (X : matrix) (m : Z) (eps : float) :
  elbow_eps K X m = Ok (Some eps) ->
  exists e,
    K (k_distance_curve m X) = Ok (Some e) /\
    nth_error (k_distance_curve m X) e = Some eps /\
    ascending (k_distance_curve m X) /\
    exists per_row,
      Permutation (k_distance_curve m X) per_row /\
      Forall2 (is_kth_nearest_distance m X) X per_row.
Proof.
  intros H.
  assert (Hm : 1 <= m <= len X).
  { unfold elbow_eps, kneighbors in H.
    destruct (m <=? 0) eqn:E1; [discriminate|].
    destruct (len X <? m) eqn:E2; [discriminate|].
    apply Z.leb_gt in E1. apply Z.ltb_ge in E2. lia. }
  rewrite (elbow_eps_curve K X m Hm) in H.
  destruct (K (k_distance_curve m X)) as [[e|]|ex]; simpl in H; try discriminate.
  exists e. split; [reflexivity|]. split.
  { unfold index in H.
    destruct (nth_error (k_distance_curve m X) e) as [v|]; simpl in H; [|discriminate].
    injection H as ->. reflexivity. }
  split; [apply np_sort_ascending|].
  exists (map (kth_nearest_distance m X) X). split; [apply np_sort_perm|].
  apply Forall2_map_r. intros x _. apply kth_nearest_distance_spec. exact Hm.
Qed.

(** The query counts the row itself: the distance of a row of the matrix to
    its first nearest row is not beyond its distance to itself. *)
Lemma first_nearest_is_not_beyond_the_row_itself (X : matrix) (x : row) (d : float) :
  In x X -> is_kth_nearest_distance 1 X x d -> np_le d (euclidean x x) = true.
Proof.
  intros Hx (_ & Hlt & _).
  destruct (np_lt (euclidean x x) d) eqn:E.
  - exfalso. apply in_split in Hx. destruct Hx as (l1 & l2 & ->).
    rewrite filter_app in Hlt. simpl in Hlt. rewrite E in Hlt.
    unfold len in Hlt. rewrite length_app in Hlt. simpl in Hlt. lia.
  - unfold np_lt in E. apply andb_false_iff in E. destruct E as [E | E].
    + destruct (np_le_total (euclidean x x) d) as [H | H]; [congruence | exact H].
    + apply negb_false_iff in E. exact E.
Qed.

(** ** The clustering primitive *)

Lemma assign_length (labels : labeling) (i : nat) (c : Z) :
  List.length (assign labels i c) = List.length labels.
Proof.
  revert i. induction labels as [|a l IH]; intros [|i]; simpl; auto.
Qed.

Lemma label_at_assign_same (labels : labeling) (i : nat) (c : Z) :
  (i < List.length labels)%nat -> label_at (assign labels i c) i = c.
Proof.
  unfold label_at. revert i.
  induction labels as [|a l IH]; intros [|i] H; simpl in *; try lia; auto.
  apply IH. lia.
Qed.

Lemma label_at_assign_other (labels : labeling) (i j : nat) (c : Z) :
  i <> j -> label_at (assign labels i c) j = label_at labels j.
Proof.
  unfold label_at. revert i j.
  induction labels as [|a l IH]; intros [|i] [|j] H; simpl; try reflexivity; try congruence.
  apply IH. congruence.
Qed.

Lemma in_assign (labels : labeling) (i : nat) (c x : Z) :
  In x (assign labels i c) -> x = c \/ In x labels.
Proof.
  revert i. induction labels as [|a l IH]; intros [|i]; simpl; try tauto.
  - intros [H|H]; auto.
  - intros [H|H]; auto. destruct (IH _ H); auto.
Qed.

Lemma unset_in_bounds (labels : labeling) (i : nat) :
  label_at labels i = -1 -> (i < List.length labels)%nat.
Proof.
  unfold label_at. intros H.
  destruct (Nat.lt_ge_cases i (List.length labels)) as [Hlt|Hge]; [exact Hlt|].
  rewrite nth_overflow in H by exact Hge. discriminate.
Qed.

Lemma unset_le_length (labels : labeling) : (unset labels <= List.length labels)%nat.
Proof. apply filter_length_le. Qed.

Lemma unset_assign (labels : labeling) (i : nat) (c : Z) :
  label_at labels i = -1 -> c <> -1 ->
  S (unset (assign labels i c)) = unset labels.
Proof.
  unfold unset, label_at. revert i.
  induction labels as [|a l IH]; intros [|i] H Hc; simpl in *; try discriminate.
  - subst a. simpl. destruct (c =? -1) eqn:E; [apply Z.eqb_eq in E; contradiction|].
    reflexivity.
  - destruct (a =? -1); simpl; rewrite (IH i H Hc); reflexivity.
Qed.

Lemma within_assign (k : Z) (labels : labeling) (i : nat) (c : Z) :
  -1 <= c < k -> within k labels -> within k (assign labels i c).
Proof.
  intros Hc H. apply Forall_forall. intros x Hx.
  destruct (in_assign _ _ _ _ Hx) as [-> | Hin]; [exact Hc|].
  exact (proj1 (Forall_forall _ _) H x Hin).
Qed.

Lemma within_mono (k k' : Z) (labels : labeling) :
  k <= k' -> within k labels -> within k' labels.
Proof.
  intros Hk H. eapply Forall_impl; [|exact H]. simpl. intros c Hc. lia.
Qed.

Lemma keeps_refl (labels : labeling) : keeps labels labels.
Proof. split; auto. Qed.

Lemma keeps_trans (l1 l2 l3 : labeling) : keeps l1 l2 -> keeps l2 l3 -> keeps l1 l3.
Proof.
  intros [H1 K1] [H2 K2]. split; [congruence|].
  intros j Hj. rewrite K2; rewrite K1; auto.
Qed.

Lemma keeps_assign (labels : labeling) (i : nat) (c : Z) :
  label_at labels i = -1 -> keeps labels (assign labels i c).
Proof.
  intros H. split; [apply assign_length|].
  intros j Hj. apply label_at_assign_other. congruence.
Qed.

Lemma keeps_in (labels labels' : labeling) (c : Z) :
  keeps labels labels' -> c <> -1 -> In c labels -> In c labels'.
Proof.
  intros [Hlen K] Hc Hin.
  destruct (In_nth _ _ 0 Hin) as (j & Hj & Hn).
  assert (E : label_at labels' j = c) by (rewrite K; unfold label_at; congruence).
  rewrite <- E. apply nth_In. lia.
Qed.

Section ClusterGrowth.

Variable neighborhoods : list (list nat).
Variable is_core : list bool.
Variable n : nat.
Hypothesis neighborhoods_bounded :
  Forall (fun nb => (List.length nb <= n)%nat) neighborhoods.

Lemma pushed_bounded (i : nat) (p : nat -> bool) :
  (List.length (rev (filter p (nth i neighborhoods []))) <= n)%nat.
Proof.
  rewrite length_rev. etransitivity; [apply filter_length_le|].
  destruct (nth_in_or_default i neighborhoods []) as [Hin | ->]; [|simpl; lia].
  exact (proj1 (Forall_forall _ _) neighborhoods_bounded _ Hin).
Qed.

Lemma expand_keeps (fuel : nat) (k : Z) (i : nat) (stack : list nat)
    (labels labels' : labeling) :
  0 <= k ->
  expand fuel neighborhoods is_core k i stack labels = Some labels' ->
  keeps labels labels' /\
  (within (k + 1) labels -> within (k + 1) labels') /\
  label_at labels' i <> -1.
Proof.
  intros Hk. revert i stack labels.
  induction fuel as [|fuel IH]; intros i stack labels H; simpl in H; [discriminate|].
  set (labels1 := if label_at labels i =? -1 then assign labels i k else labels) in *.
  assert (K1 : keeps labels labels1).
  { unfold labels1. destruct (label_at labels i =? -1) eqn:E.
    - apply keeps_assign. apply Z.eqb_eq. exact E.
    - apply keeps_refl. }
  assert (W1 : within (k + 1) labels -> within (k + 1) labels1).
  { unfold labels1. destruct (label_at labels i =? -1); [|auto].
    apply within_assign. lia. }
  assert (S1 : label_at labels1 i <> -1).
  { unfold labels1. destruct (label_at labels i =? -1) eqn:E.
    - apply Z.eqb_eq in E. rewrite label_at_assign_same; [lia|].
      apply unset_in_bounds. exact E.
    - apply Z.eqb_neq. exact E. }
  match type of H with
  | match ?s with _ => _ end = _ => destruct s as [|i' stack2]
  end.
  - injection H as <-. auto.
  - destruct (IH _ _ _ H) as (K2 & W2 & _).
    split; [exact (keeps_trans _ _ _ K1 K2)|]. split; [auto|].
    rewrite (proj2 K2 i S1). exact S1.
Qed.

Lemma expand_total (fuel : nat) (k : Z) (i : nat) (stack : list nat)
    (labels : labeling) :
  0 <= k ->
  (unset labels * (n + 1) + List.length stack < fuel)%nat ->
  exists labels', expand fuel neighborhoods is_core k i stack labels = Some labels'.
Proof.
  intros Hk. revert i stack labels.
  induction fuel as [|fuel IH]; intros i stack labels Hf; [lia|]. simpl.
  destruct (label_at labels i =? -1) eqn:E; simpl.
  - apply Z.eqb_eq in E.
    pose proof (unset_assign labels i k E ltac:(lia)) as Hu.
    destruct (nth i is_core false).
    + pose proof (pushed_bounded i
        (fun v => label_at (assign labels i k) v =? -1)) as Hp.
      destruct (rev _ ++ stack) as [|i' stack2] eqn:Es; [eauto|].
      apply IH.
      assert (Hl : (S (List.length stack2) <= n + List.length stack)%nat).
      { change (S (List.length stack2)) with (List.length (i' :: stack2)).
        rewrite <- Es, length_app. lia. }
      nia.
    + destruct stack as [|i' stack2]; [eauto|]. apply IH. simpl in Hf. nia.
  - destruct stack as [|i' stack2]; [eauto|]. apply IH. simpl in Hf. lia.
Qed.

End ClusterGrowth.

Section RowsInOrder.

Variable neighborhoods : list (list nat).
Variable is_core : list bool.
Variable n : nat.
Variable fuel : nat.
Hypothesis neighborhoods_bounded :
  Forall (fun nb => (List.length nb <= n)%nat) neighborhoods.
Hypothesis enough_fuel : (n * (n + 1) < fuel)%nat.

Lemma dbscan_inner_numbered (rows : list nat) (k : Z) (labels : labeling) :
  numbered n k labels ->
  exists labels' k',
    dbscan_inner fuel neighborhoods is_core rows k labels = Some labels' /\
    numbered n k' labels' /\ keeps labels labels' /\
    forall i, In i rows -> (i < n)%nat -> nth i is_core false = true ->
              label_at labels' i <> -1.
Proof.
  revert k labels. induction rows as [|i rows IH]; intros k labels Hn; simpl.
  - exists labels, k. repeat split; try apply Hn; auto.
  - destruct (negb (label_at labels i =? -1) || negb (nth i is_core false)) eqn:E.
    + destruct (IH k labels Hn) as (labels' & k' & Hr & Hn' & K & Hc).
      exists labels', k'. repeat split; try apply Hn'; try apply K; auto.
      intros j [<- | Hj] Hlt Hcore; [|auto].
      rewrite Hcore in E. simpl in E. rewrite orb_false_r in E.
      apply negb_true_iff, Z.eqb_neq in E.
      rewrite (proj2 K i E). exact E.
    + apply orb_false_iff in E. destruct E as [E1 E2].
      apply negb_false_iff, Z.eqb_eq in E1.
      destruct Hn as (Hk & Hlen & Hw & Hall).
      destruct (expand_total neighborhoods is_core n neighborhoods_bounded
                  fuel k i [] labels Hk) as [labels1 E].
      { pose proof (unset_le_length labels). simpl. nia. }
      rewrite E.
      destruct (expand_keeps neighborhoods is_core fuel k i [] labels labels1 Hk E)
        as (K1 & W1 & S1).
      assert (Hn1 : numbered n (k + 1) labels1).
      { split; [lia|]. split; [rewrite (proj1 K1); exact Hlen|].
        split; [apply W1; apply (within_mono k); [lia | exact Hw]|].
        intros c Hc. destruct (Z.eq_dec c k) as [-> | Hne].
        - assert (Hi : (i < List.length labels1)%nat)
            by (rewrite (proj1 K1); apply unset_in_bounds; exact E1).
          assert (Hik : label_at labels1 i = k).
          { clear - E E1 Hk. revert E.
            destruct fuel as [|f]; simpl; [discriminate|].
            rewrite E1. simpl. intros E.
            assert (Ha : label_at (assign labels i k) i = k)
              by (apply label_at_assign_same; apply unset_in_bounds; exact E1).
            match type of E with
            | match ?s with _ => _ end = _ => destruct s as [|i' st2]
            end.
            - injection E as <-. exact Ha.
            - destruct (expand_keeps neighborhoods is_core f k i' st2 _ _ Hk E)
                as ((_ & K2) & _). rewrite K2; [exact Ha | lia]. }
          rewrite <- Hik. apply nth_In. exact Hi.
        - apply (keeps_in labels); [exact K1 | lia | apply Hall; lia]. }
      destruct (IH (k + 1) labels1 Hn1) as (labels' & k' & Hr & Hn' & K & Hc).
      exists labels', k'. repeat split; try apply Hn'.
      * exact Hr.
      * rewrite (proj1 K). apply K1.
      * intros j Hj. rewrite (proj2 K); [apply K1; exact Hj|].
        rewrite (proj2 K1 j Hj). exact Hj.
      * intros j [<- | Hj] Hlt Hcore; [|auto].
        rewrite (proj2 K i S1). exact S1.
Qed.

End RowsInOrder.

Section Density.

Variable neighborhoods : list (list nat).
Variable is_core : list bool.

Lemma expand_density (fuel : nat) (k : Z) (i : nat) (stack : list nat)
    (labels labels' : labeling) :
  0 <= k ->
  expand fuel neighborhoods is_core k i stack labels = Some labels' ->
  (reached neighborhoods is_core i ->
   Forall (reached neighborhoods is_core) stack ->
   sound neighborhoods is_core labels -> sound neighborhoods is_core labels') /\
  (spreading neighborhoods is_core (i :: stack) labels ->
   spreading neighborhoods is_core [] labels').
Proof.
  intros Hk. revert i stack labels.
  induction fuel as [|fuel IH]; intros i stack labels H; simpl in H; [discriminate|].
  set (labels1 := if label_at labels i =? -1 then assign labels i k else labels) in *.
  set (stack1 := if (label_at labels i =? -1) && nth i is_core false
                 then rev (filter (fun v => label_at labels1 v =? -1)
                                  (nth i neighborhoods [])) ++ stack
                 else stack) in *.
  assert (K1 : keeps labels labels1).
  { unfold labels1. destruct (label_at labels i =? -1) eqn:E.
    - apply keeps_assign. apply Z.eqb_eq. exact E.
    - apply keeps_refl. }
  assert (S1 : label_at labels1 i <> -1).
  { unfold labels1. destruct (label_at labels i =? -1) eqn:E.
    - apply Z.eqb_eq in E. rewrite label_at_assign_same; [lia|].
      apply unset_in_bounds. exact E.
    - apply Z.eqb_neq. exact E. }
  assert (A1 : reached neighborhoods is_core i ->
               sound neighborhoods is_core labels ->
               sound neighborhoods is_core labels1).
  { intros Hi Hs j Hj Hl. destruct (Nat.eq_dec j i) as [-> | Hne]; [exact Hi|].
    apply Hs.
    - rewrite <- (proj1 K1). exact Hj.
    - unfold labels1 in Hl. destruct (label_at labels i =? -1); [|exact Hl].
      rewrite label_at_assign_other in Hl by congruence. exact Hl. }
  assert (R1 : reached neighborhoods is_core i ->
               Forall (reached neighborhoods is_core) stack ->
               Forall (reached neighborhoods is_core) stack1).
  { intros Hi Hst. unfold stack1.
    destruct (label_at labels i =? -1); simpl; [|exact Hst].
    destruct (nth i is_core false) eqn:Ec; [|exact Hst].
    apply Forall_app. split; [|exact Hst].
    apply Forall_forall. intros v Hv. apply in_rev, filter_In in Hv.
    right. exists i. split; [exact Ec | apply Hv]. }
  assert (B1 : spreading neighborhoods is_core (i :: stack) labels ->
               spreading neighborhoods is_core stack1 labels1).
  { intros Hsp c j Hc Hl Hj.
    assert (Hsub : forall v, In v stack -> In v stack1).
    { intros v Hv. unfold stack1.
      destruct ((label_at labels i =? -1) && nth i is_core false); [|exact Hv].
      apply in_or_app. right. exact Hv. }
    destruct (Z.eq_dec (label_at labels c) (-1)) as [Eu | En].
    - assert (Eci : c = i).
      { destruct (Nat.eq_dec c i) as [E|Hne]; [exact E|]. exfalso. apply Hl.
        unfold labels1. destruct (label_at labels i =? -1); [|exact Eu].
        rewrite label_at_assign_other by congruence. exact Eu. }
      subst c. destruct (Z.eq_dec (label_at labels1 j) (-1)) as [Ej | Ej]; [|left; exact Ej].
      right. unfold stack1. apply Z.eqb_eq in Eu. rewrite Eu, Hc. simpl.
      apply in_or_app. left. apply -> in_rev. apply filter_In.
      split; [exact Hj | apply Z.eqb_eq; exact Ej].
    - destruct (Hsp c j Hc En Hj) as [Hlj | [<- | Hin]].
      + left. rewrite (proj2 K1 j Hlj). exact Hlj.
      + left. exact S1.
      + right. apply Hsub. exact Hin. }
  fold stack1 in H.
  destruct stack1 as [|i' stack2] eqn:Es.
  - injection H as <-. split; [intros Hi _ Hs; exact (A1 Hi Hs) | exact B1].
  - destruct (IH _ _ _ H) as [A2 B2]. split.
    + intros Hi Hst Hs. pose proof (R1 Hi Hst) as Hr.
      inversion Hr as [|? ? Hri' Hr2]; subst. exact (A2 Hri' Hr2 (A1 Hi Hs)).
    + intros Hsp. exact (B2 (B1 Hsp)).
Qed.

Lemma dbscan_inner_density (fuel : nat) (rows : list nat) (k : Z)
    (labels labels' : labeling) :
  0 <= k ->
  dbscan_inner fuel neighborhoods is_core rows k labels = Some labels' ->
  sound neighborhoods is_core labels -> spreading neighborhoods is_core [] labels ->
  sound neighborhoods is_core labels' /\ spreading neighborhoods is_core [] labels'.
Proof.
  revert k labels. induction rows as [|i rows IH]; intros k labels Hk H Hs Hsp;
    simpl in H.
  - injection H as <-. auto.
  - destruct (negb (label_at labels i =? -1) || negb (nth i is_core false)) eqn:E.
    + exact (IH k labels Hk H Hs Hsp).
    + apply orb_false_iff in E. destruct E as [_ E2]. apply negb_false_iff in E2.
      destruct (expand fuel neighborhoods is_core k i [] labels) as [labels1|] eqn:Ee;
        [|discriminate].
      destruct (expand_density fuel k i [] labels labels1 Hk Ee) as [A B].
      apply (IH (k + 1) labels1 ltac:(lia) H).
      * apply A; [left; exact E2 | constructor | exact Hs].
      * apply B. intros c j Hc Hl Hj.
        destruct (Hsp c j Hc Hl Hj) as [Hlj | []]. left. exact Hlj.
Qed.

End Density.

Lemma radius_neighbors_bounded (eps : float) (X : matrix) :
  Forall (fun nb => (List.length nb <= List.length X)%nat) (radius_neighbors eps X).
Proof.
  unfold radius_neighbors. apply Forall_forall. intros nb Hnb.
  apply in_map_iff in Hnb. destruct Hnb as (x & <- & _).
  etransitivity; [apply filter_length_le|]. rewrite length_seq. lia.
Qed.

Lemma numbered_start (n : nat) : numbered n 0 (repeat (-1) n).
Proof.
  split; [lia|]. split; [apply repeat_length|]. split; [|intros c Hc; lia].
  apply Forall_forall. intros c Hc. apply repeat_spec in Hc. lia.
Qed.

Lemma unlabelled_start (neighborhoods : list (list nat)) (is_core : list bool) (n : nat) :
  List.length is_core = n ->
  sound neighborhoods is_core (repeat (-1) n) /\
  spreading neighborhoods is_core [] (repeat (-1) n).
Proof.
  intros Hlen. split.
  - intros j Hj Hl. exfalso. apply Hl. unfold label_at.
    rewrite repeat_length in Hj. apply nth_repeat_lt. exact Hj.
  - intros c j Hc Hl Hj. exfalso. apply Hl. unfold label_at.
    apply nth_repeat_lt.
    destruct (Nat.lt_ge_cases c n) as [Hlt | Hge]; [exact Hlt|].
    rewrite nth_overflow in Hc by lia. discriminate.
Qed.

(** C9. For a distance above zero, at least one sample per neighbourhood
    and a matrix with rows, the clustering returns one label per row of the
    matrix, the label at position [i] being that of row [i]: it is -1 exactly
    when row [i] is neither a core row nor within the distance of one.  Every
    label is -1 or one of [0..k-1], each of these [k] numbers being used. *)
Theorem dbscan_labels_every_row (eps : float) (min_samples : Z) (X : matrix) :
  PrimFloat.ltb 0 eps = true ->
  1 <= min_samples ->
  X <> [] ->
  exists labels k,
    dbscan eps min_samples X = Ok labels /\
    List.length labels = List.length X /\
    0 <= k /\
    Forall (fun c => c = -1 \/ 0 <= c < k) labels /\
    (forall c, 0 <= c < k -> In c labels) /\
    (forall i, (i < List.length X)%nat ->
               (label_at labels i = -1 <-> ~ density_reached eps min_samples X i)).
Proof.
  intros Heps Hm HX. unfold dbscan. rewrite Heps. simpl.
  replace (min_samples <? 1) with false by (symmetry; apply Z.ltb_ge; lia).
  replace (len X =? 0) with false.
  2:{ symmetry. apply Z.eqb_neq. unfold len. destruct X; [contradiction|simpl; lia]. }
  set (n := List.length X).
  set (nbs := radius_neighbors eps X).
  set (cores := core_samples min_samples nbs).
  destruct (dbscan_inner_numbered nbs cores n
              (n * (n + 1) + 1) (radius_neighbors_bounded eps X) ltac:(lia)
              (seq 0 n) 0 (repeat (-1) n) (numbered_start n))
    as (labels & k & E & (Hk & Hlen & Hw & Hall) & _ & Hcore).
  assert (Hcl : List.length cores = n)
    by (unfold cores, core_samples, nbs, radius_neighbors; rewrite !length_map; reflexivity).
  destruct (unlabelled_start nbs cores n Hcl) as [Hs0 Hp0].
  destruct (dbscan_inner_density nbs cores _ _ 0 _ labels ltac:(lia) E Hs0 Hp0)
    as [Hs Hp].
  rewrite E. exists labels, k. repeat split; auto; try lia.
  - eapply Forall_impl; [|exact Hw]. simpl. intros c Hc. lia.
  - intros Hl [Hc | (c & Hc & Hin)].
    + apply (Hcore i); [apply in_seq; lia | exact H | exact Hc | exact Hl].
    + assert (Hcn : (c < n)%nat).
      { destruct (Nat.lt_ge_cases c n) as [Hlt | Hge]; [exact Hlt|].
        unfold core_point in Hc. fold nbs in Hc. fold cores in Hc.
        rewrite nth_overflow in Hc by lia. discriminate. }
      assert (Hlc : label_at labels c <> -1)
        by (apply Hcore; [apply in_seq; lia | exact Hcn | exact Hc]).
      destruct (Hp c i Hc Hlc Hin) as [Hli | []]. exact (Hli Hl).
  - intros Hnot. destruct (Z.eq_dec (label_at labels i) (-1)) as [El | Nl]; [exact El|].
    exfalso. apply Hnot. apply (Hs i); [rewrite Hlen; exact H | exact Nl].
Qed.

(** ** Distinct labels and their order *)

Lemma mem_In (a : Z) (l : list Z) : mem a l = true <-> In a l.
Proof.
  unfold mem. rewrite existsb_exists. split.
  - intros (x & Hx & E). apply Z.eqb_eq in E. subst x. exact Hx.
  - intros H. exists a. split; [exact H | apply Z.eqb_refl].
Qed.

Lemma unique_from_In (seen l : list Z) (x : Z) :
  In x (unique_from seen l) <-> In x l /\ ~ In x seen.
Proof.
  revert seen. induction l as [|a l IH]; intros seen; simpl; [tauto|].
  destruct (mem a seen) eqn:E.
  - apply mem_In in E. rewrite IH. split.
    + intros [H1 H2]. auto.
    + intros [[-> | H1] H2]; [contradiction | auto].
  - assert (Hn : ~ In a seen) by (intros H; apply mem_In in H; congruence).
    simpl. rewrite IH. simpl. split.
    + intros [<- | [H1 H2]]; [auto|]. split; [auto|]. intros H. apply H2. auto.
    + intros [[<- | H1] H2]; [auto|].
      destruct (Z.eq_dec a x) as [-> | Hne]; [auto|].
      right. split; [exact H1|]. intros [H | H]; [congruence | contradiction].
Qed.

Lemma unique_from_NoDup (seen l : list Z) : NoDup (unique_from seen l).
Proof.
  revert seen. induction l as [|a l IH]; intros seen; simpl; [constructor|].
  destruct (mem a seen); [apply IH|].
  constructor; [|apply IH].
  rewrite unique_from_In. intros [_ H]. apply H. left. reflexivity.
Qed.

Lemma unique_In (l : list Z) (x : Z) : In x (unique l) <-> In x l.
Proof. unfold unique. rewrite unique_from_In. simpl. tauto. Qed.

Lemma unique_NoDup (l : list Z) : NoDup (unique l).
Proof. apply unique_from_NoDup. Qed.

Lemma insert_sorted_perm (a : Z) (l : list Z) : Permutation (insert_sorted a l) (a :: l).
Proof.
  induction l as [|b l IH]; simpl; [reflexivity|].
  destruct (a <=? b); [reflexivity|].
  rewrite IH. apply perm_swap.
Qed.

Lemma sorted_perm (l : list Z) : Permutation (sorted l) l.
Proof.
  induction l as [|a l IH]; simpl; [reflexivity|].
  rewrite insert_sorted_perm. constructor. exact IH.
Qed.

Lemma insert_sorted_ascending (a : Z) (l : list Z) :
  ~ In a l -> StronglySorted Z.lt l -> StronglySorted Z.lt (insert_sorted a l).
Proof.
  induction l as [|b l IH]; intros Hn Hs; simpl.
  - constructor; constructor.
  - inversion Hs as [|? ? Hs' Hb]; subst.
    assert (Hab : a <> b) by (intros ->; apply Hn; left; reflexivity).
    destruct (a <=? b) eqn:E.
    + apply Z.leb_le in E. constructor; [exact Hs|].
      constructor; [lia|]. eapply Forall_impl; [|exact Hb]. simpl. intros c Hc. lia.
    + apply Z.leb_gt in E. constructor.
      * apply IH; [|exact Hs']. intros H. apply Hn. right. exact H.
      * apply Forall_forall. intros c Hc.
        apply (Permutation_in _ (insert_sorted_perm a l)) in Hc.
        destruct Hc as [<- | Hc]; [lia|].
        exact (proj1 (Forall_forall _ _) Hb c Hc).
Qed.

Lemma sorted_ascending (l : list Z) : NoDup l -> StronglySorted Z.lt (sorted l).
Proof.
  induction 1 as [|a l Hn Hd IH]; simpl; [constructor|].
  apply insert_sorted_ascending; [|exact IH].
  intros H. apply Hn. exact (Permutation_in _ (sorted_perm l) H).
Qed.

(** ** Per-cluster counts *)

Lemma count_one (a : Z) (u : list Z) :
  NoDup u -> In a u ->
  fold_right Z.add 0 (map (fun c => if a =? c then 1 else 0) u) = 1.
Proof.
  induction 1 as [|b u Hn Hd IH]; intros Hin; simpl; [contradiction|].
  destruct Hin as [-> | Hin].
  - rewrite Z.eqb_refl.
    assert (Hz : fold_right Z.add 0 (map (fun c => if a =? c then 1 else 0) u) = 0).
    { clear - Hn. induction u as [|c u IH]; simpl; [reflexivity|].
      destruct (a =? c) eqn:E.
      - apply Z.eqb_eq in E. subst c. exfalso. apply Hn. left. reflexivity.
      - rewrite IH; [reflexivity|]. intros H. apply Hn. right. exact H. }
    lia.
  - destruct (a =? b) eqn:E.
    + apply Z.eqb_eq in E. subst b. contradiction.
    + rewrite (IH Hin). reflexivity.
Qed.

Lemma counts_add_up (E : Type) (df : list (E * Z)) (u : list Z) :
  NoDup u -> (forall r, In r df -> In (snd r) u) ->
  fold_right Z.add 0 (map (fun c => len (filter (fun r => snd r =? c) df)) u) = len df.
Proof.
  intros Hd. induction df as [|r df IH]; intros Hall.
  - simpl. clear. induction u as [|c u IH]; simpl; [reflexivity|].
    rewrite IH. reflexivity.
  - assert (Hsplit : forall c,
        len (filter (fun r0 => snd r0 =? c) (r :: df)) =
        (if snd r =? c then 1 else 0) + len (filter (fun r0 => snd r0 =? c) df)).
    { intros c. simpl. unfold len. destruct (snd r =? c); simpl List.length; lia. }
    rewrite (map_ext _ _ Hsplit).
    assert (Hsum : forall (f g : Z -> Z) (l : list Z),
        fold_right Z.add 0 (map (fun c => f c + g c) l) =
        fold_right Z.add 0 (map f l) + fold_right Z.add 0 (map g l)).
    { intros f g l. induction l as [|c l IHl]; simpl; [reflexivity|]. rewrite IHl. lia. }
    rewrite Hsum, IH by (intros r0 H0; apply Hall; right; exact H0).
    rewrite (count_one (snd r) u Hd) by (apply Hall; left; reflexivity).
    unfold len. simpl List.length. lia.
Qed.

Lemma cluster_stats_labels (df : list (product * Z)) :
  map cluster (cluster_stats_of df) = sorted (unique (map snd df)).
Proof.
  unfold cluster_stats_of. rewrite map_map. simpl. apply map_id.
Qed.

Lemma cluster_stats_counts (df : list (product * Z)) :
  total_count (cluster_stats_of df) = len df.
Proof.
  unfold total_count, cluster_stats_of. rewrite map_map. simpl.
  apply counts_add_up.
  - apply (Permutation_NoDup (l := unique (map snd df))).
    + symmetry. apply sorted_perm.
    + apply unique_NoDup.
  - intros r Hr. apply (Permutation_in _ (Permutation_sym (sorted_perm _))).
    apply unique_In. apply in_map. exact Hr.
Qed.

(** ** The analysis pipelines *)

Section PipelineFacts.

Variable StandardScaler_fit_transform : matrix -> result matrix.
Variable KneeLocator_elbow : list float -> result (option nat).
Variable DBSCAN_fit_predict : float -> Z -> matrix -> result labeling.
Variable silhouette_score : matrix -> labeling -> result float.
Variable plot_clusters : list (float * float * Z) -> result string.

Abbreviation products := (analyze_products StandardScaler_fit_transform KneeLocator_elbow
                            DBSCAN_fit_predict silhouette_score plot_clusters).

Lemma analyze_products_result (raw : list product_record) (r : product_analysis) :
  products raw = Ok r ->
  cluster_statistics r = cluster_stats_of (product_clusters r) /\
  total_products r = len (product_clusters r) /\
  product_number_of_clusters r = count_clusters (product_clusters r).
Proof.
  unfold analyze_products. intros H.
  destruct (len raw =? 0); [discriminate|].
  destruct (len (dropna (map coerce raw)) =? 0); [discriminate|].
  destruct (standardize_features _ _) as [Xs|e]; simpl in H; [|discriminate].
  destruct (find_optimal_parameters _ _ _ _ _) as [found|e]; simpl in H; [|discriminate].
  destruct (DBSCAN_fit_predict _ _ _) as [labels|e]; simpl in H; [|discriminate].
  destruct (set_cluster _ _) as [df|e]; simpl in H; [|discriminate].
  destruct (plot_clusters _) as [img|e]; simpl in H; [|discriminate].
  injection H as <-. simpl. auto.
Qed.

(** C10. In a result of the product pipeline the statistics list one entry
    per distinct label of the rows, the label -1 included when a row carries
    it, in ascending order of the labels; each entry counts the rows of its
    label, and the counts add up to [total_products]. *)
Theorem product_cluster_statistics_partition
    (raw : list product_record) (r : product_analysis) :
  products raw = Ok r ->
  NoDup (map cluster (cluster_statistics r)) /\
  (forall c, In c (map cluster (cluster_statistics r)) <->
             In c (map snd (product_clusters r))) /\
  StronglySorted Z.lt (map cluster (cluster_statistics r)) /\
  Forall (fun s => product_count s =
                   len (filter (fun p => snd p =? cluster s) (product_clusters r)))
         (cluster_statistics r) /\
  total_count (cluster_statistics r) = total_products r.
Proof.
  intros H. destruct (analyze_products_result raw r H) as (Es & Et & _).
  rewrite Es, Et, cluster_stats_labels.
  assert (Hp := sorted_perm (unique (map snd (product_clusters r)))).
  split; [|split; [|split; [|split]]].
  - apply (Permutation_NoDup (Permutation_sym Hp)). apply unique_NoDup.
  - intros c. split; intros Hc.
    + apply unique_In. exact (Permutation_in _ Hp Hc).
    + apply (Permutation_in _ (Permutation_sym Hp)). apply unique_In. exact Hc.
  - apply sorted_ascending. apply unique_NoDup.
  - unfold cluster_stats_of. apply Forall_forall. intros s Hs.
    apply in_map_iff in Hs. destruct Hs as (c & <- & _). reflexivity.
  - apply cluster_stats_counts.
Qed.

(** X16. The product pipeline raises its own error on a table without rows,
    and on a table whose rows are all dropped by the numeric cleaning, before
    anything is standardized. *)
Lemma products_without_rows_raise_no_data (raw : list product_record) :
  dropna (map coerce raw) = [] ->
  exists e, products raw = Raise e /\ NoDataError e.
Proof.
  intros H. unfold analyze_products, NoDataError.
  destruct (len raw =? 0); [eauto|].
  rewrite H. simpl. eauto.
Qed.

(** C6. The customer, supplier and country pipelines have no check of their
    own for a table without rows: the empty feature matrix goes to the
    standardizer, and the pipeline fails with whatever the standardizer
    raises on it. *)
Theorem empty_table_reaches_standardizer (e : exn) :
  StandardScaler_fit_transform [] = Raise e ->
  analyze_customers StandardScaler_fit_transform KneeLocator_elbow
    DBSCAN_fit_predict silhouette_score plot_clusters [] = Raise e /\
  analyze_suppliers StandardScaler_fit_transform KneeLocator_elbow
    DBSCAN_fit_predict silhouette_score plot_clusters [] = Raise e /\
  analyze_countries StandardScaler_fit_transform KneeLocator_elbow
    DBSCAN_fit_predict silhouette_score plot_clusters [] = Raise e.
Proof.
  intros H.
  unfold analyze_customers, analyze_suppliers, analyze_countries, analyze,
    standardize_features.
  simpl. rewrite H. simpl. auto.
Qed.

End PipelineFacts.

(** ** The pipelines and the search on the worked inputs *)

Lemma analyze_result (E : Type)
    (scaler : matrix -> result matrix)
    (K : list float -> result (option nat))
    (D : float -> Z -> matrix -> result labeling)
    (S : matrix -> labeling -> result float)
    (plot : list (float * float * Z) -> result string)
    (features : E -> row) (x_col y_col : E -> float)
    (df : list E) (r : analysis E) :
  analyze scaler K D S plot features x_col y_col df = Ok r ->
  number_of_clusters r = len (unique (map snd (clusters r))) - 1 /\
  total r = len (clusters r) /\
  outliers_count r = len (filter (fun p => snd p =? -1) (clusters r)).
Proof.
  unfold analyze. intros H.
  destruct (standardize_features _ _) as [Xs|e]; simpl in H; [|discriminate].
  destruct (find_optimal_parameters _ _ _ _ _) as [found|e]; simpl in H; [|discriminate].
  destruct (D _ _ _) as [labels|e]; simpl in H; [|discriminate].
  destruct (set_cluster _ _) as [df'|e]; simpl in H; [|discriminate].
  destruct (plot _) as [img|e]; simpl in H; [|discriminate].
  injection H as <-. simpl. auto.
Qed.

(** C1. Ten customers in two groups of five, every one of them put in one of
    two clusters and none left as noise: the labels hold two distinct values
    and no -1, and the customer pipeline reports [number_of_clusters = 1],
    one less than the number of distinct labels. *)
Theorem number_of_clusters_without_noise_is_one_short :
  exists r,
    analyze_customers scaler_as_is (elbow_at 0) dbscan (score_const 0.5)
                      plot_blank ten_customers = Ok r /\
    map snd (clusters r) = [0; 0; 0; 0; 0; 1; 1; 1; 1; 1] /\
    ~ In (-1) (map snd (clusters r)) /\
    len (unique (map snd (clusters r))) = 2 /\
    outliers_count r = 0 /\
    number_of_clusters r = 1.
Proof.
  eexists. split; [vm_compute; reflexivity|]. simpl.
  repeat split; try reflexivity.
  intros H. repeat (destruct H as [H | H]; [discriminate H|]). exact H.
Qed.

Lemma dbscan_refuses_eps (eps : float) (min_samples : Z) (X : matrix) (l : labeling) :
  dbscan eps min_samples X = Ok l -> PrimFloat.ltb 0 eps = true.
Proof.
  unfold dbscan. destruct (PrimFloat.ltb 0 eps); [reflexivity|].
  simpl. discriminate.
Qed.

Lemma candidates_2_to_10 (m : Z) :
  2 <= m <= 10 ->
  m = 2 \/ m = 3 \/ m = 4 \/ m = 5 \/ m = 6 \/ m = 7 \/ m = 8 \/ m = 9 \/ m = 10.
Proof. lia. Qed.

Lemma no_survivor_returns_defaults_witness :
  find_optimal_parameters (elbow_at 9) dbscan (score_const 0.5) one_group (2, 10)
  = Ok (0x1.3333333333333p-2%float, 3).
Proof.
  apply no_survivor_returns_defaults.
  intros m Hm. right. unfold degenerate_labeling.
  destruct (candidates_2_to_10 m Hm)
    as [-> | [-> | [-> | [-> | [-> | [-> | [-> | [-> | ->]]]]]]]];
    (eexists; eexists; split; [vm_compute; reflexivity|];
     split; [vm_compute; reflexivity | apply Z.leb_le; vm_compute; reflexivity]).
Defined.

Lemma skipped_candidate_continues_witness :
  (forall st, loop_body (elbow_at 0) dbscan (score_const 0.5) two_groups st 6 = Ok st) /\
  (forall st ms,
     for_each (elbow_at 0) dbscan (score_const 0.5) two_groups (6 :: ms) st =
     for_each (elbow_at 0) dbscan (score_const 0.5) two_groups ms st) /\
  (forall st before after,
     for_each (elbow_at 0) dbscan (score_const 0.5) two_groups (before ++ 6 :: after) st =
     for_each (elbow_at 0) dbscan (score_const 0.5) two_groups (before ++ after) st).
Proof.
  apply (skipped_candidate_continues (elbow_at 0) dbscan (score_const 0.5) two_groups 6).
  right. eexists. eexists.
  split; [vm_compute; reflexivity|].
  split; [vm_compute; reflexivity | apply Z.leb_le; vm_compute; reflexivity].
Defined.

Lemma search_deterministic_first_best_wins_witness :
  try_min_samples (elbow_at 0) dbscan (score_const 0.5) two_groups 2
    = Ok (Scored 1 0.5) /\
  try_min_samples (elbow_at 0) dbscan (score_const 0.5) two_groups 3
    = Ok (Scored 1 0.5) /\
  find_optimal_parameters (elbow_at 0) dbscan (score_const 0.5) two_groups (2, 10)
    = Ok (1%float, 2).
Proof.
  split; [vm_compute; reflexivity|]. split; [vm_compute; reflexivity|].
  apply (proj2 (search_deterministic_first_best_wins
                  (elbow_at 0) dbscan (score_const 0.5) two_groups 2 10)
               2 1%float 0.5%float).
  unfold first_best.
  split; [lia|]. split; [vm_compute; reflexivity|]. split; [vm_compute; reflexivity|].
  split; [|split].
  - intros m' Hm'.
    destruct (candidates_2_to_10 m' Hm')
      as [-> | [-> | [-> | [-> | [-> | [-> | [-> | [-> | ->]]]]]]]];
      eexists; vm_compute; reflexivity.
  - intros m' e' s' Hm'. lia.
  - intros m' e' s' Hm' Ht. left.
    destruct (candidates_2_to_10 m' ltac:(lia))
      as [-> | [-> | [-> | [-> | [-> | [-> | [-> | [-> | ->]]]]]]]];
      try lia; vm_compute in Ht; try discriminate Ht;
      injection Ht as _ <-; reflexivity.
Defined.

Lemma selected_parameters_valid_witness :
  find_optimal_parameters (elbow_at 0) dbscan (score_const 0.5) two_groups (2, 10)
    = Ok (1%float, 2) /\
  PrimFloat.ltb 0 1 = true /\ 2 <= 2.
Proof.
  split; [vm_compute; reflexivity|].
  apply (selected_parameters_valid (elbow_at 0) dbscan (score_const 0.5)
           two_groups 2 10 1%float 2).
  - intros e m l H. exact (dbscan_refuses_eps e m two_groups l H).
  - lia.
  - vm_compute. reflexivity.
Defined.

Lemma candidate_eps_is_elbow_of_k_distance_curve_witness :
  exists e,
    elbow_at 0 (k_distance_curve 2 two_groups) = Ok (Some e) /\
    nth_error (k_distance_curve 2 two_groups) e = Some 1%float /\
    ascending (k_distance_curve 2 two_groups) /\
    exists per_row,
      Permutation (k_distance_curve 2 two_groups) per_row /\
      Forall2 (is_kth_nearest_distance 2 two_groups) two_groups per_row.
Proof.
  apply (candidate_eps_is_elbow_of_k_distance_curve (elbow_at 0) two_groups 2 1%float).
  vm_compute. reflexivity.
Defined.

Lemma dbscan_labels_every_row_witness :
  exists labels k,
    dbscan 1 2 two_groups = Ok labels /\
    List.length labels = List.length two_groups /\
    0 <= k /\
    Forall (fun c => c = -1 \/ 0 <= c < k) labels /\
    (forall c, 0 <= c < k -> In c labels) /\
    (forall i, (i < List.length two_groups)%nat ->
               (label_at labels i = -1 <-> ~ density_reached 1 2 two_groups i)).
Proof.
  apply (dbscan_labels_every_row 1 2 two_groups).
  - reflexivity.
  - lia.
  - discriminate.
Defined.

Lemma product_cluster_statistics_partition_witness :
  exists r,
    analyze_products scaler_as_is (elbow_at 0) dbscan (score_const 0.5)
                     plot_blank twelve_products = Ok r /\
    map cluster (cluster_statistics r) = [-1; 0; 1] /\
    NoDup (map cluster (cluster_statistics r)) /\
    (forall c, In c (map cluster (cluster_statistics r)) <->
               In c (map snd (product_clusters r))) /\
    StronglySorted Z.lt (map cluster (cluster_statistics r)) /\
    Forall (fun s => product_count s =
                     len (filter (fun p => snd p =? cluster s) (product_clusters r)))
           (cluster_statistics r) /\
    total_count (cluster_statistics r) = total_products r.
Proof.
  eexists. split; [vm_compute; reflexivity|]. split; [reflexivity|].
  apply (product_cluster_statistics_partition scaler_as_is (elbow_at 0) dbscan
           (score_const 0.5) plot_blank twelve_products).
  vm_compute. reflexivity.
Defined.

Lemma empty_table_reaches_standardizer_witness :
  analyze_customers scaler_as_is (elbow_at 0) dbscan (score_const 0.5) plot_blank []
    = Raise (ValueError "Found array with 0 sample(s) while a minimum of 1 is required by StandardScaler") /\
  analyze_suppliers scaler_as_is (elbow_at 0) dbscan (score_const 0.5) plot_blank []
    = Raise (ValueError "Found array with 0 sample(s) while a minimum of 1 is required by StandardScaler") /\
  analyze_countries scaler_as_is (elbow_at 0) dbscan (score_const 0.5) plot_blank []
    = Raise (ValueError "Found array with 0 sample(s) while a minimum of 1 is required by StandardScaler").
Proof.
  apply (empty_table_reaches_standardizer scaler_as_is (elbow_at 0) dbscan
           (score_const 0.5) plot_blank).
  reflexivity.
Defined.

(** A candidate above the number of rows is not skipped: the neighbour query
    raises and the search ends with that exception.  Two identical rows under
    the default range end so at the candidate 3. *)
Lemma search_raises_beyond_row_count :
  find_optimal_parameters no_knee dbscan (score_const 0.5)
                          [[0]; [0]]%float (2, 10)
  = Raise (ValueError "Expected n_neighbors <= n_samples_fit").
Proof. vm_compute. reflexivity. Qed.

(** On duplicate rows the elbow distance may be 0.  The clustering of line 69
    refuses it and the search ends with that exception; with a clustering
    that took any distance the pair returned would carry the distance 0. *)
Lemma search_raises_on_zero_elbow_distance :
  elbow_eps (elbow_at 0) duplicate_rows 2 = Ok (Some 0%float) /\
  find_optimal_parameters (elbow_at 0) dbscan (score_const 0.5) duplicate_rows (2, 10)
  = Raise (ValueError "eps must be positive").
Proof. split; vm_compute; reflexivity. Qed.

Lemma zero_eps_returned_without_refusal :
  find_optimal_parameters (elbow_at 0) split_at_one (score_const 0.5)
                          duplicate_rows (2, 10)
  = Ok (0%float, 2).
Proof. vm_compute. reflexivity. Qed.

(* ================================================================= *)
(** * Further properties *)

(** ** More on the order of binary64 numbers *)

Lemma SFcompare_lt_trans (x y z : spec_float) :
  SFcompare x y = Some Lt -> SFcompare y z = Some Lt -> SFcompare x z = Some Lt.
Proof.
  destruct x as [s1 | s1 | | s1 m1 e1], y as [s2 | s2 | | s2 m2 e2],
           z as [s3 | s3 | | s3 m3 e3]; simpl;
    try destruct s1; try destruct s2; try destruct s3; try congruence.
  all: change (PosDef.Pos.compare_cont Eq m1 m2) with (Pos.compare m1 m2);
    change (PosDef.Pos.compare_cont Eq m2 m3) with (Pos.compare m2 m3);
    change (PosDef.Pos.compare_cont Eq m1 m3) with (Pos.compare m1 m3);
    destruct (Z.compare_spec e1 e2), (Z.compare_spec e2 e3), (Z.compare_spec e1 e3);
    try congruence; try lia;
    destruct (Pos.compare_spec m1 m2), (Pos.compare_spec m2 m3), (Pos.compare_spec m1 m3);
    simpl; try congruence; try lia.
Qed.

Lemma ltb_trans (a b c : float) :
  PrimFloat.ltb a b = true -> PrimFloat.ltb b c = true -> PrimFloat.ltb a c = true.
Proof.
  rewrite !ltb_spec. unfold SFltb. intros H1 H2.
  destruct (SFcompare (Prim2SF a) (Prim2SF b)) as [[]|] eqn:E1; try discriminate.
  destruct (SFcompare (Prim2SF b) (Prim2SF c)) as [[]|] eqn:E2; try discriminate.
  rewrite (SFcompare_lt_trans _ _ _ E1 E2). reflexivity.
Qed.

(** ** The parameter search: failures and the pair returned *)

Section SearchOutcomes.

Variable KneeLocator_elbow : list float -> result (option nat).
Variable DBSCAN_fit_predict : float -> Z -> matrix -> result labeling.
Variable silhouette_score : matrix -> labeling -> result float.
Variable X : matrix.

Abbreviation trial_of :=
  (try_min_samples KneeLocator_elbow DBSCAN_fit_predict silhouette_score X).
Abbreviation run :=
  (for_each KneeLocator_elbow DBSCAN_fit_predict silhouette_score X).

(** X1. The search stops at the first candidate that raises: when every
    candidate below [m] gives an outcome and candidate [m] raises [e], the
    search raises [e], whatever the later candidates would do. *)
Theorem search_raises_first_failure (lo hi m : Z) (e : exn) :
  lo <= m <= hi ->
  try_min_samples KneeLocator_elbow DBSCAN_fit_predict silhouette_score X m = Raise e ->
  (forall m', lo <= m' < m ->
     exists t, try_min_samples KneeLocator_elbow DBSCAN_fit_predict
                 silhouette_score X m' = Ok t) ->
  find_optimal_parameters KneeLocator_elbow DBSCAN_fit_predict silhouette_score X
    (lo, hi) = Raise e.
Proof.
  intros Hm He Hbefore. unfold find_optimal_parameters. simpl fst. simpl snd.
  rewrite (range_split lo (hi + 1) m) by lia. rewrite for_each_app.
  destruct (loop_total KneeLocator_elbow DBSCAN_fit_predict silhouette_score X
              (range lo m) initial) as [st1 E1].
  { intros m' Hm'. apply in_range in Hm'. apply Hbefore. lia. }
  rewrite E1. simpl. unfold loop_body. rewrite He. reflexivity.
Qed.

Lemma run_raises (ms : list Z) (st : search) (m : Z) (e : exn) :
  In m ms -> trial_of m = Raise e -> exists e', run ms st = Raise e'.
Proof.
  revert st. induction ms as [|a ms IH]; intros st Hin He; [contradiction|].
  simpl. unfold loop_body.
  destruct (trial_of a) as [t|ea] eqn:Ea; simpl; [|eauto].
  destruct Hin as [-> | Hin]; [congruence|].
  apply IH; assumption.
Qed.

Lemma trial_beyond_rows (m : Z) :
  len X < m ->
  trial_of m = Raise (ValueError "Expected n_neighbors <= n_samples_fit").
Proof.
  intros H. unfold try_min_samples, elbow_eps, kneighbors.
  assert (H0 : 0 <= len X) by (unfold len; lia).
  replace (m <=? 0) with false by (symmetry; apply Z.leb_gt; lia).
  replace (len X <? m) with true by (symmetry; apply Z.ltb_lt; lia).
  reflexivity.
Qed.

(** X2. On a matrix with fewer rows than the upper end of a non-empty range
    the search never returns a pair, not even the default one: the neighbour
    query of the last candidate, if not an earlier step, raises. *)
Theorem search_raises_on_fewer_rows_than_hi (lo hi : Z) :
  lo <= hi ->
  len X < hi ->
  exists e,
    find_optimal_parameters KneeLocator_elbow DBSCAN_fit_predict silhouette_score X
      (lo, hi) = Raise e.
Proof.
  intros Hr Hn. unfold find_optimal_parameters. simpl fst. simpl snd.
  destruct (run_raises (range lo (hi + 1)) initial hi _
              ltac:(apply in_range; lia) (trial_beyond_rows hi Hn)) as [e He].
  exists e. rewrite He. reflexivity.
Qed.

Lemma default_search_raises_below_ten_rows :
  len X < 10 ->
  exists e,
    find_optimal_parameters KneeLocator_elbow DBSCAN_fit_predict silhouette_score X
      (2, 10) = Raise e.
Proof.
  intros Hn. unfold find_optimal_parameters. simpl fst. simpl snd.
  destruct (run_raises (range 2 (10 + 1)) initial 10 _
              ltac:(apply in_range; lia) (trial_beyond_rows 10 Hn)) as [e He].
  exists e. rewrite He. reflexivity.
Qed.

Lemma returned_pair_recorded (lo hi : Z) (eps : float) (m : Z) :
  find_optimal_parameters KneeLocator_elbow DBSCAN_fit_predict silhouette_score X
    (lo, hi) = Ok (eps, m) ->
  exists st,
    run (range lo (hi + 1)) initial = Ok st /\
    ((best_score st = neg_infinity /\ (eps, m) = (0x1.3333333333333p-2%float, 3)) \/
     (lo <= m <= hi /\ trial_of m = Ok (Scored eps (best_score st)))).
Proof.
  intros H. unfold find_optimal_parameters in H. simpl fst in H. simpl snd in H.
  destruct (run (range lo (hi + 1)) initial) as [st|ex] eqn:El; simpl in H; [|discriminate].
  exists st. split; [reflexivity|].
  apply loop_recorded_range in El. unfold chosen in H.
  destruct El as [(He & Hm & Hs) | (m0 & e0 & Hin & He & Hm & Ht)].
  - rewrite He in H. left. split; [exact Hs | congruence].
  - rewrite He, Hm in H. injection H as <- <-. right.
    apply in_range in Hin. split; [lia | exact Ht].
Qed.

(** X3. A pair the search returns is the default pair (0.3, 3) or belongs to
    a candidate of the range: the distance is the elbow distance of that
    candidate, the clustering at it succeeded with more than one distinct
    label, and the scoring succeeded. *)
Theorem returned_pair_is_default_or_scored (lo hi : Z) (eps : float) (m : Z) :
  find_optimal_parameters KneeLocator_elbow DBSCAN_fit_predict silhouette_score X
    (lo, hi) = Ok (eps, m) ->
  (eps, m) = (0x1.3333333333333p-2%float, 3) \/
  (lo <= m <= hi /\
   exists labels score,
     elbow_eps KneeLocator_elbow X m = Ok (Some eps) /\
     DBSCAN_fit_predict eps m X = Ok labels /\
     1 < len (np_unique labels) /\
     silhouette_score X labels = Ok score).
Proof.
  intros H. destruct (returned_pair_recorded lo hi eps m H)
    as (st & _ & [[_ Hd] | [Hm Ht]]); [left; exact Hd|].
  right. split; [exact Hm|].
  destruct (scored_trial _ _ _ _ _ _ _ Ht) as (labels & H1 & H2 & H3 & H4).
  exists labels, (best_score st). auto.
Qed.

Lemma run_not_beaten (ms seen : list Z) (st st' : search) :
  (forall m e s, In m seen -> trial_of m = Ok (Scored e s) ->
                 float_gt s (best_score st) = false) ->
  run ms st = Ok st' ->
  forall m e s, In m (seen ++ ms) -> trial_of m = Ok (Scored e s) ->
                float_gt s (best_score st') = false.
Proof.
  revert seen st. induction ms as [|a ms IH]; intros seen st Hseen Hrun; simpl in Hrun.
  - injection Hrun as <-. rewrite app_nil_r. exact Hseen.
  - unfold loop_body in Hrun.
    destruct (trial_of a) as [t|ex] eqn:Ea; simpl in Hrun; [|discriminate].
    replace (seen ++ a :: ms) with ((seen ++ [a]) ++ ms)
      by (rewrite <- app_assoc; reflexivity).
    refine (IH _ _ _ Hrun). clear IH Hrun.
    intros m e s Hin Hm. apply in_app_or in Hin.
    destruct t as [| eps | eps score]; simpl.
    + destruct Hin as [Hin | [<- | []]]; [eauto | congruence].
    + destruct Hin as [Hin | [<- | []]]; [eauto | congruence].
    + destruct (float_gt score (best_score st)) eqn:Eg; simpl.
      * destruct Hin as [Hin | [<- | []]].
        -- pose proof (Hseen m e s Hin Hm) as Hle. unfold float_gt in *.
           destruct (PrimFloat.ltb score s) eqn:Es; [|reflexivity].
           rewrite (ltb_trans _ _ _ Eg Es) in Hle. discriminate.
        -- rewrite Ea in Hm. injection Hm as _ <-. apply ltb_irrefl.
      * destruct Hin as [Hin | [<- | []]]; [eauto|].
        rewrite Ea in Hm. injection Hm as _ <-. exact Eg.
Qed.

(** X4. No scored candidate of the range has a score above that of the pair
    returned.  When the default pair is returned for want of a recorded
    candidate, no candidate of the range scored above minus infinity. *)
Theorem returned_score_not_exceeded (lo hi : Z) (eps : float) (m : Z) :
  find_optimal_parameters KneeLocator_elbow DBSCAN_fit_predict silhouette_score X
    (lo, hi) = Ok (eps, m) ->
  exists best,
    ((best = neg_infinity /\ (eps, m) = (0x1.3333333333333p-2%float, 3)) \/
     (lo <= m <= hi /\
      try_min_samples KneeLocator_elbow DBSCAN_fit_predict silhouette_score X m
      = Ok (Scored eps best))) /\
    forall m' e' s',
      lo <= m' <= hi ->
      try_min_samples KneeLocator_elbow DBSCAN_fit_predict silhouette_score X m'
      = Ok (Scored e' s') ->
      float_gt s' best = false.
Proof.
  intros H. destruct (returned_pair_recorded lo hi eps m H) as (st & El & Hcase).
  exists (best_score st). split; [exact Hcase|].
  intros m' e' s' Hm' Ht'.
  apply (run_not_beaten (range lo (hi + 1)) [] initial st
           ltac:(intros ? ? ? []) El m' e' s'); [|exact Ht'].
  simpl. apply in_range. lia.
Qed.

(** X5. An empty range, [hi < lo], tries no candidate: the default pair is
    returned for every matrix, whatever the libraries would answer. *)
Theorem empty_range_returns_defaults (lo hi : Z) :
  hi < lo ->
  find_optimal_parameters KneeLocator_elbow DBSCAN_fit_predict silhouette_score X
    (lo, hi) = Ok (0x1.3333333333333p-2%float, 3).
Proof.
  intros H. unfold find_optimal_parameters, range. simpl fst. simpl snd.
  replace (Z.to_nat (hi + 1 - lo)) with 0%nat by lia. reflexivity.
Qed.

End SearchOutcomes.

(** ** The pipelines: what a result holds *)

Lemma set_cluster_rows (E : Type) (df : list E) (labels : labeling) (df' : list (E * Z)) :
  set_cluster df labels = Ok df' ->
  map fst df' = df /\ map snd df' = labels.
Proof.
  unfold set_cluster. destruct (List.length df =? List.length labels)%nat eqn:El;
    [|discriminate].
  apply Nat.eqb_eq in El. intros H. injection H as <-.
  clear - El. revert labels El.
  induction df as [|a df IH]; intros [|c labels] El; simpl in *; try discriminate; auto.
  injection El as El. destruct (IH labels El) as [-> ->]. auto.
Qed.

Lemma unique_length_with (a : Z) (l : list Z) :
  In a l ->
  List.length (unique l) = S (List.length (unique (filter (fun c => negb (c =? a)) l))).
Proof.
  intros Ha.
  set (v := unique (filter (fun c => negb (c =? a)) l)).
  assert (Hv : forall x, In x v <-> In x l /\ x <> a).
  { intros x. unfold v. rewrite unique_In, filter_In.
    rewrite negb_true_iff, Z.eqb_neq. tauto. }
  assert (Hnd : NoDup (a :: v)).
  { constructor; [|apply unique_NoDup]. intros H. apply Hv in H. tauto. }
  change (S (List.length v)) with (List.length (a :: v)).
  apply Nat.le_antisymm.
  - apply NoDup_incl_length; [apply unique_NoDup|].
    intros x Hx. apply (proj1 (unique_In _ _)) in Hx.
    destruct (Z.eq_dec x a) as [-> | Hne]; [left; reflexivity|].
    right. apply Hv. split; assumption.
  - apply NoDup_incl_length; [exact Hnd|].
    intros x [<- | Hx]; apply (proj2 (unique_In _ _)); [exact Ha|].
    apply (proj1 (Hv x)) in Hx. tauto.
Qed.

(** X6. When at least one row is labelled -1, the number the pipelines
    report as [number_of_clusters] is the number of distinct labels other
    than -1. *)
Theorem count_clusters_with_noise (E : Type) (df : list (E * Z)) :
  In (-1) (map snd df) ->
  count_clusters df = len (unique (cluster_labels (map snd df))).
Proof.
  intros H. unfold count_clusters, cluster_labels, len.
  rewrite (unique_length_with (-1) _ H). lia.
Qed.

Section PipelineOutcomes.

Variable StandardScaler_fit_transform : matrix -> result matrix.
Variable KneeLocator_elbow : list float -> result (option nat).
Variable DBSCAN_fit_predict : float -> Z -> matrix -> result labeling.
Variable silhouette_score : matrix -> labeling -> result float.
Variable plot_clusters : list (float * float * Z) -> result string.

Variable E : Type.
Variable features : E -> row.
Variable x_col y_col : E -> float.

Lemma analyze_steps (df : list E) (r : analysis E) :
  analyze StandardScaler_fit_transform KneeLocator_elbow DBSCAN_fit_predict
          silhouette_score plot_clusters features x_col y_col df = Ok r ->
  exists X_scaled labels,
    StandardScaler_fit_transform (map features df) = Ok X_scaled /\
    find_optimal_parameters KneeLocator_elbow DBSCAN_fit_predict silhouette_score
      X_scaled (2, 10) = Ok (parameters r) /\
    DBSCAN_fit_predict (fst (parameters r)) (snd (parameters r)) X_scaled = Ok labels /\
    set_cluster df labels = Ok (clusters r) /\
    total r = len (clusters r) /\
    number_of_clusters r = count_clusters (clusters r) /\
    outliers r = filter (fun p => snd p =? -1) (clusters r) /\
    outliers_count r = len (outliers r).
Proof.
  unfold analyze, standardize_features. intros H.
  destruct (StandardScaler_fit_transform _) as [Xs|e]; simpl in H; [|discriminate].
  destruct (find_optimal_parameters _ _ _ _ _) as [found|e] eqn:Ef; simpl in H;
    [|discriminate].
  destruct (DBSCAN_fit_predict _ _ _) as [labels|e] eqn:Ed; simpl in H; [|discriminate].
  destruct (set_cluster _ _) as [df'|e] eqn:Es; simpl in H; [|discriminate].
  destruct (plot_clusters _) as [img|e]; simpl in H; [|discriminate].
  injection H as <-. simpl. exists Xs, labels. repeat split; auto.
Qed.

(** X7. A result of the customer, supplier or country pipeline lists every
    row of the table once, in the order of the table, each with one label,
    and its total is the number of rows of the table. *)
Theorem analysis_lists_every_row (df : list E) (r : analysis E) :
  analyze StandardScaler_fit_transform KneeLocator_elbow DBSCAN_fit_predict
          silhouette_score plot_clusters features x_col y_col df = Ok r ->
  map fst (clusters r) = df /\ total r = len df.
Proof.
  intros H. destruct (analyze_steps df r H)
    as (Xs & labels & _ & _ & _ & Hs & Ht & _).
  destruct (set_cluster_rows _ _ _ _ Hs) as [Hf _].
  split; [exact Hf|]. rewrite Ht. unfold len. rewrite <- Hf.
  rewrite length_map. reflexivity.
Qed.

(** X8. The labels of a result are the clustering of the standardized
    feature rows at the very parameters the result reports, and these are
    what the search returned for that matrix over the range 2..10. *)
Theorem analysis_labels_cluster_at_reported_parameters (df : list E) (r : analysis E) :
  analyze StandardScaler_fit_transform KneeLocator_elbow DBSCAN_fit_predict
          silhouette_score plot_clusters features x_col y_col df = Ok r ->
  exists X_scaled,
    StandardScaler_fit_transform (map features df) = Ok X_scaled /\
    find_optimal_parameters KneeLocator_elbow DBSCAN_fit_predict silhouette_score
      X_scaled (2, 10) = Ok (parameters r) /\
    DBSCAN_fit_predict (fst (parameters r)) (snd (parameters r)) X_scaled
    = Ok (map snd (clusters r)).
Proof.
  intros H. destruct (analyze_steps df r H)
    as (Xs & labels & H1 & H2 & H3 & Hs & _).
  destruct (set_cluster_rows _ _ _ _ Hs) as [_ Hl].
  exists Xs. rewrite Hl. auto.
Qed.

Lemma np_unique_length (l : list Z) :
  List.length (np_unique l) = List.length (unique l).
Proof. unfold np_unique. apply Permutation_length, sorted_perm. Qed.

(** X9. Unless the default pair (0.3, 3) is reported, the labels of a
    result hold at least two distinct values, so [number_of_clusters] is at
    least 1: the final clustering repeats the one that was scored for the
    reported parameters during the search. *)
Theorem searched_parameters_give_two_labels (df : list E) (r : analysis E) :
  analyze StandardScaler_fit_transform KneeLocator_elbow DBSCAN_fit_predict
          silhouette_score plot_clusters features x_col y_col df = Ok r ->
  parameters r <> (0x1.3333333333333p-2%float, 3) ->
  2 <= len (unique (map snd (clusters r))) /\ 1 <= number_of_clusters r.
Proof.
  intros H Hnd. destruct (analyze_steps df r H)
    as (Xs & labels & _ & Hf & Hd & Hs & _ & Hn & _).
  destruct (set_cluster_rows _ _ _ _ Hs) as [_ Hl].
  rewrite Hn. unfold count_clusters. rewrite Hl.
  destruct (parameters r) as [eps m] eqn:Ep. simpl in Hd.
  destruct (returned_pair_recorded KneeLocator_elbow DBSCAN_fit_predict
              silhouette_score Xs 2 10 eps m Hf)
    as (st & _ & [[_ Hdef] | [_ Ht]]); [contradiction|].
  destruct (scored_trial _ _ _ _ _ _ _ Ht) as (labels' & _ & Hd' & Hu & _).
  rewrite Hd in Hd'. injection Hd' as <-.
  unfold len in *. rewrite np_unique_length in Hu. lia.
Qed.

(** X10. The outliers of a result are the rows labelled -1, in the order of
    the table; [outliers_count] is their number and lies between 0 and the
    total. *)
Theorem outliers_are_the_noise_rows (df : list E) (r : analysis E) :
  analyze StandardScaler_fit_transform KneeLocator_elbow DBSCAN_fit_predict
          silhouette_score plot_clusters features x_col y_col df = Ok r ->
  (forall p, In p (outliers r) <-> In p (clusters r) /\ snd p = -1) /\
  outliers_count r = len (filter (fun c => c =? -1) (map snd (clusters r))) /\
  0 <= outliers_count r <= total r.
Proof.
  intros H. destruct (analyze_steps df r H)
    as (Xs & labels & _ & _ & _ & _ & Ht & _ & Ho & Hc).
  rewrite Hc, Ho, Ht. split; [|split].
  - intros p. rewrite filter_In, Z.eqb_eq. tauto.
  - unfold len. f_equal. clear. induction (clusters r) as [|p l IH]; simpl; [reflexivity|].
    destruct (snd p =? -1); simpl; rewrite IH; reflexivity.
  - unfold len. pose proof (filter_length_le (fun p : E * Z => snd p =? -1) (clusters r)).
    lia.
Qed.

Lemma analyze_raises_below_ten_rows (df : list E) :
  (forall X X_scaled, StandardScaler_fit_transform X = Ok X_scaled ->
                      List.length X_scaled = List.length X) ->
  len df < 10 ->
  exists e,
    analyze StandardScaler_fit_transform KneeLocator_elbow DBSCAN_fit_predict
            silhouette_score plot_clusters features x_col y_col df = Raise e.
Proof.
  intros Hrows Hn. unfold analyze, standardize_features.
  destruct (StandardScaler_fit_transform _) as [Xs|e] eqn:Es; simpl; [|eauto].
  destruct (default_search_raises_below_ten_rows KneeLocator_elbow DBSCAN_fit_predict
              silhouette_score Xs) as [e He].
  { unfold len in *. rewrite (Hrows _ _ Es), length_map. exact Hn. }
  rewrite He. simpl. eauto.
Qed.

End PipelineOutcomes.

Section ProductOutcomes.

Variable StandardScaler_fit_transform : matrix -> result matrix.
Variable KneeLocator_elbow : list float -> result (option nat).
Variable DBSCAN_fit_predict : float -> Z -> matrix -> result labeling.
Variable silhouette_score : matrix -> labeling -> result float.
Variable plot_clusters : list (float * float * Z) -> result string.

Lemma analyze_products_steps (raw : list product_record) (r : product_analysis) :
  analyze_products StandardScaler_fit_transform KneeLocator_elbow DBSCAN_fit_predict
                   silhouette_score plot_clusters raw = Ok r ->
  exists labels,
    set_cluster (dropna (map coerce raw)) labels = Ok (product_clusters r) /\
    dropna (map coerce raw) <> [] /\
    (exists X_scaled,
       find_optimal_parameters KneeLocator_elbow DBSCAN_fit_predict silhouette_score
         X_scaled (2, 10) = Ok (product_parameters r) /\
       DBSCAN_fit_predict (fst (product_parameters r)) (snd (product_parameters r))
         X_scaled = Ok labels) /\
    total_products r = len (product_clusters r) /\
    cluster_statistics r = cluster_stats_of (product_clusters r) /\
    product_outliers r = filter (fun p => snd p =? -1) (product_clusters r) /\
    product_outliers_count r = len (product_outliers r).
Proof.
  unfold analyze_products. intros H.
  destruct (len raw =? 0); [discriminate|].
  destruct (len (dropna (map coerce raw)) =? 0) eqn:En; [discriminate|].
  destruct (standardize_features _ _) as [Xs|e]; simpl in H; [|discriminate].
  destruct (find_optimal_parameters _ _ _ _ _) as [found|e] eqn:Ef; simpl in H;
    [|discriminate].
  destruct (DBSCAN_fit_predict _ _ _) as [labels|e] eqn:Ed; simpl in H; [|discriminate].
  destruct (set_cluster _ _) as [df|e] eqn:Es; simpl in H; [|discriminate].
  destruct (plot_clusters _) as [img|e]; simpl in H; [|discriminate].
  injection H as <-. simpl. exists labels.
  split; [exact Es|]. split; [intros E; rewrite E in En; discriminate|].
  split; [exists Xs; auto|]. auto.
Qed.



(** X12. In a result of the product pipeline the statistics entry of the
    label -1 counts as many rows as [outliers_count] reports, and there is
    such an entry exactly when [outliers_count] is above 0. *)
Theorem noise_entry_counts_outliers (raw : list product_record) (r : product_analysis) :
  analyze_products StandardScaler_fit_transform KneeLocator_elbow DBSCAN_fit_predict
                   silhouette_score plot_clusters raw = Ok r ->
  (forall s, In s (cluster_statistics r) -> cluster s = -1 ->
             product_count s = product_outliers_count r) /\
  (In (-1) (map cluster (cluster_statistics r)) <-> 0 < product_outliers_count r).
Proof.
  intros H. destruct (analyze_products_steps raw r H)
    as (labels & _ & _ & _ & _ & Hst & Ho & Hc).
  rewrite Hc, Ho, Hst. split.
  - intros s Hs Hm. unfold cluster_stats_of in Hs. apply in_map_iff in Hs.
    destruct Hs as (c & <- & _). simpl in *. subst c. reflexivity.
  - rewrite cluster_stats_labels.
    assert (Hp := sorted_perm (unique (map snd (product_clusters r)))).
    split.
    + intros Hin. apply (Permutation_in _ Hp) in Hin.
      apply (proj1 (unique_In _ _)) in Hin. apply in_map_iff in Hin.
      destruct Hin as (p & Hp1 & Hp2).
      assert (Hf : In p (filter (fun p => snd p =? -1) (product_clusters r)))
        by (apply filter_In; split; [exact Hp2 | apply Z.eqb_eq; exact Hp1]).
      unfold len. destruct (filter _ _); [contradiction | simpl; lia].
    + intros Hpos. unfold len in Hpos.
      destruct (filter (fun p => snd p =? -1) (product_clusters r)) as [|p l] eqn:Ef;
        [simpl in Hpos; lia|].
      assert (Hin : In p (filter (fun p => snd p =? -1) (product_clusters r)))
        by (rewrite Ef; left; reflexivity).
      apply filter_In in Hin. destruct Hin as [Hin Hl]. apply Z.eqb_eq in Hl.
      apply (Permutation_in _ (Permutation_sym Hp)).
      apply (proj2 (unique_In _ _)). rewrite <- Hl. apply in_map. exact Hin.
Qed.

(** X17. Unless the default pair (0.3, 3) is reported, a result of the
    product pipeline has at least two entries in its statistics: the final
    clustering repeats the one that was scored for the reported parameters
    during the search, which had more than one distinct label. *)
Theorem searched_parameters_give_two_statistics
    (raw : list product_record) (r : product_analysis) :
  analyze_products StandardScaler_fit_transform KneeLocator_elbow DBSCAN_fit_predict
                   silhouette_score plot_clusters raw = Ok r ->
  product_parameters r <> (0x1.3333333333333p-2%float, 3) ->
  2 <= len (cluster_statistics r).
Proof.
  intros H Hnd. destruct (analyze_products_steps raw r H)
    as (labels & Hs & _ & (Xs & Hf & Hd) & _ & Hst & _).
  destruct (set_cluster_rows _ _ _ _ Hs) as [_ Hl].
  rewrite Hst. unfold cluster_stats_of, len. rewrite length_map, Hl.
  destruct (product_parameters r) as [eps m] eqn:Ep. simpl in Hd.
  destruct (returned_pair_recorded KneeLocator_elbow DBSCAN_fit_predict
              silhouette_score Xs 2 10 eps m Hf)
    as (st & _ & [[_ Hdef] | [_ Ht]]); [contradiction|].
  destruct (scored_trial _ _ _ _ _ _ _ Ht) as (labels' & _ & Hd' & Hu & _).
  rewrite Hd in Hd'. injection Hd' as <-.
  unfold len, np_unique in Hu. lia.
Qed.

(** X13. With a scaler that keeps the number of rows, every pipeline fails on
    a table with fewer than 10 rows (for the products: fewer than 10 rows
    left after the cleaning): the search always runs over the candidates
    2..10 and the neighbour query for 10 neighbours cannot be answered. *)
Theorem pipelines_raise_below_ten_rows
    (customers : list customer) (suppliers : list supplier)
    (countries : list country_sales) (products : list product_record) :
  (forall X X_scaled, StandardScaler_fit_transform X = Ok X_scaled ->
                      List.length X_scaled = List.length X) ->
  len customers < 10 ->
  len suppliers < 10 ->
  len countries < 10 ->
  len (dropna (map coerce products)) < 10 ->
  (exists e, analyze_customers StandardScaler_fit_transform KneeLocator_elbow
               DBSCAN_fit_predict silhouette_score plot_clusters customers = Raise e) /\
  (exists e, analyze_suppliers StandardScaler_fit_transform KneeLocator_elbow
               DBSCAN_fit_predict silhouette_score plot_clusters suppliers = Raise e) /\
  (exists e, analyze_countries StandardScaler_fit_transform KneeLocator_elbow
               DBSCAN_fit_predict silhouette_score plot_clusters countries = Raise e) /\
  (exists e, analyze_products StandardScaler_fit_transform KneeLocator_elbow
               DBSCAN_fit_predict silhouette_score plot_clusters products = Raise e).
Proof.
  intros Hrows H1 H2 H3 H4. repeat split.
  - apply analyze_raises_below_ten_rows; assumption.
  - apply analyze_raises_below_ten_rows; assumption.
  - apply analyze_raises_below_ten_rows; assumption.
  - unfold analyze_products, standardize_features.
    destruct (len products =? 0); [eauto|].
    destruct (len (dropna (map coerce products)) =? 0); [eauto|].
    destruct (StandardScaler_fit_transform _) as [Xs|e] eqn:Es; simpl; [|eauto].
    destruct (default_search_raises_below_ten_rows KneeLocator_elbow
                DBSCAN_fit_predict silhouette_score Xs) as [e He].
    { unfold len in *. rewrite (Hrows _ _ Es), length_map. exact H4. }
    rewrite He. simpl. eauto.
Qed.

(** X14. The product route answers a table without usable rows with status
    500 and a message of its own, whatever the libraries would do: "No
    product data found in the database" for a table without rows, "No valid
    numeric data found after cleaning" when the cleaning leaves none. *)
Theorem product_route_reports_missing_data (raw : list product_record) :
  dropna (map coerce raw) = [] ->
  get_product_analysis StandardScaler_fit_transform KneeLocator_elbow
    DBSCAN_fit_predict silhouette_score plot_clusters raw
  = HTTPException 500
      (if (len raw =? 0)%Z then "No product data found in the database"
       else "No valid numeric data found after cleaning").
Proof.
  intros H. unfold get_product_analysis, analyze_products.
  destruct (len raw =? 0); [reflexivity|].
  rewrite H. reflexivity.
Qed.

(** X15. With a scaler that keeps the number of rows, the customer, supplier
    and country routes answer a table with fewer than 10 rows with status
    500, never with a result. *)
Theorem routes_answer_500_below_ten_rows
    (customers : list customer) (suppliers : list supplier)
    (countries : list country_sales) :
  (forall X X_scaled, StandardScaler_fit_transform X = Ok X_scaled ->
                      List.length X_scaled = List.length X) ->
  len customers < 10 ->
  len suppliers < 10 ->
  len countries < 10 ->
  (exists detail, get_customer_analysis StandardScaler_fit_transform KneeLocator_elbow
                    DBSCAN_fit_predict silhouette_score plot_clusters customers
                  = HTTPException 500 detail) /\
  (exists detail, get_supplier_analysis StandardScaler_fit_transform KneeLocator_elbow
                    DBSCAN_fit_predict silhouette_score plot_clusters suppliers
                  = HTTPException 500 detail) /\
  (exists detail, get_country_analysis StandardScaler_fit_transform KneeLocator_elbow
                    DBSCAN_fit_predict silhouette_score plot_clusters countries
                  = HTTPException 500 detail).
Proof.
  intros Hrows H1 H2 H3.
  unfold get_customer_analysis, get_supplier_analysis, get_country_analysis,
    analyze_customers, analyze_suppliers, analyze_countries.
  repeat split.
  - destruct (analyze_raises_below_ten_rows StandardScaler_fit_transform
                KneeLocator_elbow DBSCAN_fit_predict silhouette_score plot_clusters
                customer
                (fun c => [customer_total_orders c; total_spends c; avg_order_value c])
                customer_total_orders total_spends customers Hrows H1) as [e ->].
    simpl. eauto.
  - destruct (analyze_raises_below_ten_rows StandardScaler_fit_transform
                KneeLocator_elbow DBSCAN_fit_predict silhouette_score plot_clusters
                supplier
                (fun s => [supplied_products_count s; total_sales_quantity s;
                           supplier_average_sale_price s; average_customer_count s])
                supplied_products_count total_sales_quantity suppliers Hrows H2)
      as [e ->].
    simpl. eauto.
  - destruct (analyze_raises_below_ten_rows StandardScaler_fit_transform
                KneeLocator_elbow DBSCAN_fit_predict silhouette_score plot_clusters
                country_sales
                (fun c => [country_total_orders c; average_order_amount c;
                           products_per_order c])
                country_total_orders average_order_amount countries Hrows H3)
      as [e ->].
    simpl. eauto.
Qed.

End ProductOutcomes.

(** ** The further properties on the worked inputs *)

Lemma scaler_as_is_keeps_rows (X X_scaled : matrix) :
  scaler_as_is X = Ok X_scaled -> List.length X_scaled = List.length X.
Proof.
  unfold scaler_as_is. destruct (len X =? 0); [discriminate|].
  intros H. injection H as <-. reflexivity.
Qed.

Lemma search_raises_first_failure_witness :
  find_optimal_parameters no_knee dbscan (score_const 0.5) three_rows (2, 10)
  = Raise (ValueError "Expected n_neighbors <= n_samples_fit").
Proof.
  apply (search_raises_first_failure no_knee dbscan (score_const 0.5) three_rows 2 10 4).
  - lia.
  - vm_compute. reflexivity.
  - intros m' Hm'. assert (Hc : m' = 2 \/ m' = 3) by lia.
    destruct Hc as [-> | ->]; eexists; vm_compute; reflexivity.
Defined.

Lemma search_raises_on_fewer_rows_than_hi_witness :
  exists e,
    find_optimal_parameters (elbow_at 0) dbscan (score_const 0.5) three_rows (2, 10)
    = Raise e.
Proof.
  apply (search_raises_on_fewer_rows_than_hi (elbow_at 0) dbscan (score_const 0.5)
           three_rows 2 10).
  - lia.
  - reflexivity.
Defined.

Lemma returned_pair_is_default_or_scored_witness :
  (1%float, 2) = (0x1.3333333333333p-2%float, 3) \/
  (2 <= 2 <= 10 /\
   exists labels score,
     elbow_eps (elbow_at 0) two_groups 2 = Ok (Some 1%float) /\
     dbscan 1 2 two_groups = Ok labels /\
     1 < len (np_unique labels) /\
     score_const 0.5 two_groups labels = Ok score).
Proof.
  apply (returned_pair_is_default_or_scored (elbow_at 0) dbscan (score_const 0.5)
           two_groups 2 10 1%float 2).
  vm_compute. reflexivity.
Defined.

Lemma returned_score_not_exceeded_witness :
  exists best,
    ((best = neg_infinity /\ (1%float, 2) = (0x1.3333333333333p-2%float, 3)) \/
     (2 <= 2 <= 10 /\
      try_min_samples (elbow_at 0) dbscan (score_const 0.5) two_groups 2
      = Ok (Scored 1 best))) /\
    forall m' e' s',
      2 <= m' <= 10 ->
      try_min_samples (elbow_at 0) dbscan (score_const 0.5) two_groups m'
      = Ok (Scored e' s') ->
      float_gt s' best = false.
Proof.
  apply (returned_score_not_exceeded (elbow_at 0) dbscan (score_const 0.5)
           two_groups 2 10 1%float 2).
  vm_compute. reflexivity.
Defined.

Lemma empty_range_returns_defaults_witness :
  find_optimal_parameters (elbow_at 0) dbscan (score_const 0.5) two_groups (5, 4)
  = Ok (0x1.3333333333333p-2%float, 3).
Proof.
  apply (empty_range_returns_defaults (elbow_at 0) dbscan (score_const 0.5)
           two_groups 5 4).
  lia.
Defined.

Lemma analysis_lists_every_row_witness :
  exists r,
    analyze_customers scaler_as_is (elbow_at 0) dbscan (score_const 0.5)
                      plot_blank eleven_customers = Ok r /\
    map fst (clusters r) = eleven_customers /\ total r = len eleven_customers.
Proof.
  eexists. split; [vm_compute; reflexivity|].
  apply (analysis_lists_every_row scaler_as_is (elbow_at 0) dbscan (score_const 0.5)
           plot_blank customer
           (fun c => [customer_total_orders c; total_spends c; avg_order_value c])
           customer_total_orders total_spends eleven_customers).
  vm_compute. reflexivity.
Defined.

Lemma analysis_labels_cluster_at_reported_parameters_witness :
  exists r,
    analyze_customers scaler_as_is (elbow_at 0) dbscan (score_const 0.5)
                      plot_blank eleven_customers = Ok r /\
    exists X_scaled,
      scaler_as_is
        (map (fun c => [customer_total_orders c; total_spends c; avg_order_value c])
             eleven_customers) = Ok X_scaled /\
      find_optimal_parameters (elbow_at 0) dbscan (score_const 0.5) X_scaled (2, 10)
      = Ok (parameters r) /\
      dbscan (fst (parameters r)) (snd (parameters r)) X_scaled
      = Ok (map snd (clusters r)).
Proof.
  eexists. split; [vm_compute; reflexivity|].
  apply (analysis_labels_cluster_at_reported_parameters scaler_as_is (elbow_at 0)
           dbscan (score_const 0.5) plot_blank customer
           (fun c => [customer_total_orders c; total_spends c; avg_order_value c])
           customer_total_orders total_spends eleven_customers).
  vm_compute. reflexivity.
Defined.

Lemma searched_parameters_give_two_labels_witness :
  exists r,
    analyze_customers scaler_as_is (elbow_at 0) dbscan (score_const 0.5)
                      plot_blank eleven_customers = Ok r /\
    parameters r = (1%float, 2) /\
    2 <= len (unique (map snd (clusters r))) /\ 1 <= number_of_clusters r.
Proof.
  eexists. split; [vm_compute; reflexivity|]. split; [reflexivity|].
  apply (searched_parameters_give_two_labels scaler_as_is (elbow_at 0)
           dbscan (score_const 0.5) plot_blank customer
           (fun c => [customer_total_orders c; total_spends c; avg_order_value c])
           customer_total_orders total_spends eleven_customers).
  - vm_compute. reflexivity.
  - simpl. intros H. apply (f_equal snd) in H. simpl in H. discriminate H.
Defined.

Lemma outliers_are_the_noise_rows_witness :
  exists r,
    analyze_customers scaler_as_is (elbow_at 0) dbscan (score_const 0.5)
                      plot_blank eleven_customers = Ok r /\
    outliers_count r = 1 /\
    (forall p, In p (outliers r) <-> In p (clusters r) /\ snd p = -1) /\
    outliers_count r = len (filter (fun c => c =? -1) (map snd (clusters r))) /\
    0 <= outliers_count r <= total r.
Proof.
  eexists. split; [vm_compute; reflexivity|]. split; [reflexivity|].
  apply (outliers_are_the_noise_rows scaler_as_is (elbow_at 0)
           dbscan (score_const 0.5) plot_blank customer
           (fun c => [customer_total_orders c; total_spends c; avg_order_value c])
           customer_total_orders total_spends eleven_customers).
  vm_compute. reflexivity.
Defined.

Lemma count_clusters_with_noise_witness :
  count_clusters [(tt, 0); (tt, -1); (tt, 1); (tt, 0); (tt, -1)] = 2.
Proof.
  rewrite (count_clusters_with_noise unit [(tt, 0); (tt, -1); (tt, 1); (tt, 0); (tt, -1)]).
  - reflexivity.
  - simpl. right. left. reflexivity.
Defined.

Lemma pipelines_raise_below_ten_rows_witness :
  (exists e, analyze_customers scaler_as_is (elbow_at 0) dbscan (score_const 0.5)
               plot_blank three_customers = Raise e) /\
  (exists e, analyze_suppliers scaler_as_is (elbow_at 0) dbscan (score_const 0.5)
               plot_blank three_suppliers = Raise e) /\
  (exists e, analyze_countries scaler_as_is (elbow_at 0) dbscan (score_const 0.5)
               plot_blank three_countries = Raise e) /\
  (exists e, analyze_products scaler_as_is (elbow_at 0) dbscan (score_const 0.5)
               plot_blank [product_at 1 0; product_at 2 3; unpriced_product] = Raise e).
Proof.
  apply (pipelines_raise_below_ten_rows scaler_as_is (elbow_at 0) dbscan
           (score_const 0.5) plot_blank).
  - exact scaler_as_is_keeps_rows.
  - reflexivity.
  - reflexivity.
  - reflexivity.
  - reflexivity.
Defined.


Lemma products_without_rows_raise_no_data_witness :
  exists e,
    analyze_products scaler_as_is (elbow_at 0) dbscan (score_const 0.5)
                     plot_blank [unpriced_product] = Raise e /\
    NoDataError e.
Proof.
  apply (products_without_rows_raise_no_data scaler_as_is (elbow_at 0) dbscan
           (score_const 0.5) plot_blank [unpriced_product]).
  reflexivity.
Defined.

Lemma noise_entry_counts_outliers_witness :
  exists r,
    analyze_products scaler_as_is (elbow_at 0) dbscan (score_const 0.5)
                     plot_blank twelve_products = Ok r /\
    product_outliers_count r = 1 /\
    (forall s, In s (cluster_statistics r) -> cluster s = -1 ->
               product_count s = product_outliers_count r) /\
    (In (-1) (map cluster (cluster_statistics r)) <-> 0 < product_outliers_count r).
Proof.
  eexists. split; [vm_compute; reflexivity|]. split; [reflexivity|].
  apply (noise_entry_counts_outliers scaler_as_is (elbow_at 0) dbscan
           (score_const 0.5) plot_blank twelve_products).
  vm_compute. reflexivity.
Defined.

Lemma product_route_reports_missing_data_witness :
  get_product_analysis scaler_as_is (elbow_at 0) dbscan (score_const 0.5)
                       plot_blank [unpriced_product]
  = HTTPException 500 "No valid numeric data found after cleaning".
Proof.
  apply (product_route_reports_missing_data scaler_as_is (elbow_at 0) dbscan
           (score_const 0.5) plot_blank [unpriced_product]).
  reflexivity.
Defined.

Lemma routes_answer_500_below_ten_rows_witness :
  (exists detail, get_customer_analysis scaler_as_is (elbow_at 0) dbscan
                    (score_const 0.5) plot_blank three_customers
                  = HTTPException 500 detail) /\
  (exists detail, get_supplier_analysis scaler_as_is (elbow_at 0) dbscan
                    (score_const 0.5) plot_blank three_suppliers
                  = HTTPException 500 detail) /\
  (exists detail, get_country_analysis scaler_as_is (elbow_at 0) dbscan
                    (score_const 0.5) plot_blank three_countries
                  = HTTPException 500 detail).
Proof.
  apply (routes_answer_500_below_ten_rows scaler_as_is (elbow_at 0) dbscan
           (score_const 0.5) plot_blank).
  - exact scaler_as_is_keeps_rows.
  - reflexivity.
  - reflexivity.
  - reflexivity.
Defined.

Lemma searched_parameters_give_two_statistics_witness :
  exists r,
    analyze_products scaler_as_is (elbow_at 0) dbscan (score_const 0.5)
                     plot_blank twelve_products = Ok r /\
    product_parameters r = (1%float, 2) /\
    2 <= len (cluster_statistics r).
Proof.
  eexists. split; [vm_compute; reflexivity|]. split; [reflexivity|].
  apply (searched_parameters_give_two_statistics scaler_as_is (elbow_at 0) dbscan
           (score_const 0.5) plot_blank twelve_products).
  - vm_compute. reflexivity.
  - simpl. intros H. apply (f_equal snd) in H. simpl in H. discriminate H.
Defined.
